(** * Tabbycat results views (tabbycat/results/views.py)

    A shallow embedding of the result-entry views: the postponement toggle,
    ballot entry and confirmation, the ballots-status timeline, the latest
    results, the physical ballot check-in and the public results and ballot
    pages, over an explicit model of the database tables the views read and
    write.

    Modelling conventions.
    - A table is a finite map from primary key to row ([gmap Z row]); a
      foreign key is the primary key of the row it points to.
    - [Model.objects.get] is [objects_get]: the single matching row,
      [DoesNotExist] when there is none, [MultipleObjectsReturned] otherwise.
    - A view takes the database and returns an [outcome]: the value it
      returns together with the database it leaves, or the exception that
      escapes it; an exception escapes a view only before it has written
      anything.
    - Strings are compared case-insensitively on ASCII letters.
    - [ballots_status] is embedded twice. [Float.ballots_status] computes as
      the source does, in IEEE 754 double precision; what the view returns is
      stated of it. [ballots_status] carries the same arithmetic out on exact
      rationals, and serves for the facts about the counts, which do not
      depend on rounding. [datetime.datetime.now()] is one instant per
      request. *)

From Stdlib Require Import ZArith QArith Lia Lqa Ascii SpecFloat.
From stdpp Require Import base option list gmap fin_maps strings sorting.

Close Scope Q_scope.
Open Scope Z_scope.

(** ** Strings *)

Definition lower_ascii (c : ascii) : ascii :=
  let n := nat_of_ascii c in
  if ((65 <=? n)%nat && (n <=? 90)%nat)%bool then ascii_of_nat (n + 32) else c.

Fixpoint lower (s : string) : string :=
  match s with
  | EmptyString => EmptyString
  | String c s' => String (lower_ascii c) (lower s')
  end.

(** The [name__iexact=v] lookup. *)
Definition iexact (field v : string) : Prop := lower field = lower v.

#[global] Instance iexact_dec field v : Decision (iexact field v).
Proof. unfold iexact. apply _. Defined.

Definition dquote : string := String (ascii_of_nat 34) EmptyString.

(** ** Rows of the tables *)

Module Team.
Record t := mk { short_name : string }.
End Team.

Module Venue.
Record t := mk { name : string }.
End Venue.

Inductive ResultStatus :=
| STATUS_NONE
| STATUS_POSTPONED
| STATUS_DRAFT
| STATUS_CONFIRMED.

#[global] Instance ResultStatus_eq_dec : EqDecision ResultStatus.
Proof. solve_decision. Defined.

Module Debate.
Record t := mk {
  round : Z;
  venue : option Z;
  aff_team : Team.t;
  neg_team : Team.t;
  result_status : ResultStatus;
  ballot_in : bool
}.

Definition set_result_status (s : ResultStatus) (d : t) : t :=
  mk (round d) (venue d) (aff_team d) (neg_team d) s (ballot_in d).

Definition set_ballot_in (b : bool) (d : t) : t :=
  mk (round d) (venue d) (aff_team d) (neg_team d) (result_status d) b.
End Debate.

Inductive AdjudicatorType := TYPE_CHAIR | TYPE_PANEL | TYPE_TRAINEE.

#[global] Instance AdjudicatorType_eq_dec : EqDecision AdjudicatorType.
Proof. solve_decision. Defined.

Module DebateAdjudicator.
Record t := mk {
  debate : Z;
  adjudicator : Z;
  type : AdjudicatorType
}.
End DebateAdjudicator.

(** [Round.draw_status]; the views only ask whether it is [STATUS_RELEASED]. *)
Inductive DrawStatus :=
| STATUS_NONE_DRAW
| STATUS_DRAFT_DRAW
| STATUS_CONFIRMED_DRAW
| STATUS_RELEASED.

#[global] Instance DrawStatus_eq_dec : EqDecision DrawStatus.
Proof. solve_decision. Defined.

Module Round.
Record t := mk {
  draw_status : DrawStatus;
  motions_released : bool
}.
End Round.

Inductive SubmitterType := SUBMITTER_TABROOM | SUBMITTER_PUBLIC.

Module BallotSubmission.
Record t := mk {
  debate : Z;
  version : Z;
  submitter_type : SubmitterType;
  submitter : option Z;
  confirmed : bool;
  discarded : bool;
  timestamp : Z;
  confirmer : option Z;
  confirm_timestamp : option Z;
  ip_address : string;
  ballot_set : Z
}.

Definition set_confirmer (u : option Z) (ts : option Z) (b : t) : t :=
  mk (debate b) (version b) (submitter_type b) (submitter b) (confirmed b)
     (discarded b) (timestamp b) u ts (ip_address b) (ballot_set b).

Definition set_flags (c d : bool) (b : t) : t :=
  mk (debate b) (version b) (submitter_type b) (submitter b) c d
     (timestamp b) (confirmer b) (confirm_timestamp b) (ip_address b) (ballot_set b).

Definition set_ballot_set (s : Z) (b : t) : t :=
  mk (debate b) (version b) (submitter_type b) (submitter b) (confirmed b)
     (discarded b) (timestamp b) (confirmer b) (confirm_timestamp b) (ip_address b) s.

Definition set_version (v : Z) (b : t) : t :=
  mk (debate b) v (submitter_type b) (submitter b) (confirmed b)
     (discarded b) (timestamp b) (confirmer b) (confirm_timestamp b) (ip_address b)
     (ballot_set b).
End BallotSubmission.

Inductive ActionType :=
| ACTION_TYPE_BALLOT_DISCARD
| ACTION_TYPE_BALLOT_CONFIRM
| ACTION_TYPE_BALLOT_EDIT
| ACTION_TYPE_BALLOT_SUBMIT
| ACTION_TYPE_BALLOT_CREATE
| ACTION_TYPE_BALLOT_CHECKIN.

Module ActionLogEntry.
Record t := mk {
  type : ActionType;
  user : option Z;
  debate : option Z;
  ballot_submission : option Z;
  ip_address : option string;
  tournament : Z
}.
End ActionLogEntry.

(** ** The database *)

Inductive Level := SUCCESS | ERROR.

(** A message of [django.contrib.messages]: the format string and the debate
    whose [matchup] fills it. *)
Record Message := mk_message { level : Level; format : string; about : Z }.

(** The tables, the action log and the message storage. *)
Record DB := mkDB {
  venues : gmap Z Venue.t;
  debates : gmap Z Debate.t;
  debateadjudicators : gmap Z DebateAdjudicator.t;
  rounds : gmap Z Round.t;
  ballotsubmissions : gmap Z BallotSubmission.t;
  actionlog : list ActionLogEntry.t;
  messages : list Message
}.

Definition set_debates (ds : gmap Z Debate.t) (db : DB) : DB :=
  mkDB (venues db) ds (debateadjudicators db) (rounds db) (ballotsubmissions db)
       (actionlog db) (messages db).

Definition set_ballotsubmissions (bs : gmap Z BallotSubmission.t) (db : DB) : DB :=
  mkDB (venues db) (debates db) (debateadjudicators db) (rounds db) bs (actionlog db)
       (messages db).

(** [ActionLogEntry.objects.log(...)]: the log is append-only. *)
Definition log (e : ActionLogEntry.t) (db : DB) : DB :=
  mkDB (venues db) (debates db) (debateadjudicators db) (rounds db)
       (ballotsubmissions db) (actionlog db ++ [e]) (messages db).

(** [messages.success(request, ...)] and [messages.error(request, ...)]. *)
Definition add_message (m : Message) (db : DB) : DB :=
  mkDB (venues db) (debates db) (debateadjudicators db) (rounds db)
       (ballotsubmissions db) (actionlog db) (messages db ++ [m]).

(** [debate.save()] for the row with primary key [pk]. *)
Definition save_debate (pk : Z) (d : Debate.t) (db : DB) : DB :=
  set_debates (<[pk := d]> (debates db)) db.

(** ** Queries *)

Inductive GetResult (A : Type) :=
| Got (pk : Z) (row : A)
| DoesNotExist
| MultipleObjectsReturned.
Arguments Got {A} pk row.
Arguments DoesNotExist {A}.
Arguments MultipleObjectsReturned {A}.

Section queries.
Context {A : Type} (P : A -> Prop) `{!forall x, Decision (P x)}.

(** [Model.objects.filter(P)] *)
Definition objects_filter (table : gmap Z A) : gmap Z A :=
  filter (fun kv => P kv.2) table.

(** [Model.objects.filter(P).count()] *)
Definition objects_count (table : gmap Z A) : Z :=
  Z.of_nat (size (objects_filter table)).

(** [Model.objects.get(P)] *)
Definition objects_get (table : gmap Z A) : GetResult A :=
  match map_to_list (objects_filter table) with
  | [] => DoesNotExist
  | [(k, x)] => Got k x
  | _ => MultipleObjectsReturned
  end.
End queries.

(** ** Exceptions, responses and outcomes *)

(** [DebateBallotCheckinError] is raised with one of three messages; the
    constructors name the three conditions and [str] renders the message. *)
Inductive DebateBallotCheckinError :=
| VenueNotFoundError (v : string)
| NoDebateAtVenueError (venue_name : string)
| AlreadyCheckedInError (venue_name : string).

Definition str (e : DebateBallotCheckinError) : string :=
  match e with
  | VenueNotFoundError v =>
      "There aren't any venues with the name " +:+ dquote +:+ v +:+ dquote +:+ "."
  | NoDebateAtVenueError n =>
      "There wasn't a debate in venue " +:+ n +:+ " this round."
  | AlreadyCheckedInError n =>
      "The ballot for venue " +:+ n +:+ " has already been checked in."
  end.

(** The exceptions a view can raise; only [CheckinError] is ever caught. *)
Inductive Exception :=
| CheckinError (e : DebateBallotCheckinError)
| ModelDoesNotExist
| ModelMultipleObjectsReturned
| AttributeError
| Http404
| TypeError.

(** The result of a call: a value, or an exception on its way up. *)
Inductive outcome (A : Type) :=
| Return (a : A)
| Raise (e : Exception).
Arguments Return {A} a.
Arguments Raise {A} e.

#[global] Instance outcome_ret : MRet outcome := fun A a => Return a.
#[global] Instance outcome_bind : MBind outcome := fun A B f m =>
  match m with
  | Return a => f a
  | Raise e => Raise e
  end.

#[local] Unset Elimination Schemes.
Inductive json :=
| JBool (b : bool)
| JInt (z : Z)
| JStr (s : string)
| JArr (l : list json)
| JObj (l : list (string * json)).
#[local] Set Elimination Schemes.

(** Values a view puts in a template context. *)
Inductive Value :=
| VBool (b : bool)
| VInt (z : Z)
| VStr (s : string)
| VRef (pk : Z)
| VBallotSub (pk : option Z) (b : BallotSubmission.t)
| VForm (bound : bool)
| VQuerySet (pks : list Z).

Inductive HttpResponse :=
| JsonResponse (body : json)
| RedirectRound (to : string) (round : Z)
| Render (template : string) (context : list (string * Value)).

(** ** Physical ballot check-in *)

Definition venue_named (v : string) (venue : Venue.t) : Prop :=
  iexact (Venue.name venue) v.

#[global] Instance venue_named_dec v venue : Decision (venue_named v venue).
Proof. unfold venue_named. apply _. Defined.

Definition debate_at (round venue : Z) (d : Debate.t) : Prop :=
  Debate.round d = round /\ Debate.venue d = Some venue.

#[global] Instance debate_at_dec round venue d : Decision (debate_at round venue d).
Proof. unfold debate_at. apply _. Defined.

(** [get_debate_from_ballot_checkin_request]; [v] is
    [request.POST.get('venue')]. The debate is returned with its primary key
    and with the venue found, which is its [debate.venue]. *)
Definition get_debate_from_ballot_checkin_request (db : DB) (round : Z) (v : string)
  : outcome (Z * Debate.t * Venue.t) :=
  match objects_get (venue_named v) (venues db) with
  | DoesNotExist => Raise (CheckinError (VenueNotFoundError v))
  | MultipleObjectsReturned => Raise ModelMultipleObjectsReturned
  | Got venue_pk venue =>
      match objects_get (debate_at round venue_pk) (debates db) with
      | DoesNotExist => Raise (CheckinError (NoDebateAtVenueError (Venue.name venue)))
      | MultipleObjectsReturned => Raise ModelMultipleObjectsReturned
      | Got debate_pk debate =>
          if Debate.ballot_in debate
          then Raise (CheckinError (AlreadyCheckedInError (Venue.name venue)))
          else Return (debate_pk, debate, venue)
      end
  end.

Definition not_checked_in (round : Z) (d : Debate.t) : Prop :=
  Debate.round d = round /\ Debate.ballot_in d = false.

#[global] Instance not_checked_in_dec round d : Decision (not_checked_in round d).
Proof. unfold not_checked_in. apply _. Defined.

Definition ballot_checkin_number_left (db : DB) (round : Z) : Z :=
  objects_count (not_checked_in round) (debates db).

(** The view [post_ballot_checkin]. [round] is the primary key of the round
    and [tournament] is [round.tournament]. *)
Definition post_ballot_checkin (db : DB) (user : Z) (round tournament : Z) (v : string)
  : outcome (DB * HttpResponse) :=
  match get_debate_from_ballot_checkin_request db round v with
  | Raise (CheckinError e) =>
      Return (db, JsonResponse
                    (JObj [("exists", JBool false); ("message", JStr (str e))]))
  | Raise e => Raise e
  | Return (debate_pk, debate, venue) =>
      let debate := Debate.set_ballot_in true debate in
      let db := save_debate debate_pk debate db in
      let db := log (ActionLogEntry.mk ACTION_TYPE_BALLOT_CHECKIN (Some user)
                       (Some debate_pk) None None tournament) db in
      Return (db, JsonResponse
                    (JObj [("success", JBool true);
                           ("venue", JStr (Venue.name venue));
                           ("debate_description",
                            JStr (Team.short_name (Debate.aff_team debate) +:+ " vs " +:+
                                  Team.short_name (Debate.neg_team debate)));
                           ("ballots_left",
                            JInt (ballot_checkin_number_left db round))]))
  end.

(** The view as it is handed the request: [v] is [request.POST.get('venue')],
    which is [None] when the request carries no [venue] field. The lookup
    [name__iexact=None] then asks for a venue without a name; there is none,
    and building the message of the refusal from [None] raises [TypeError],
    which the view does not catch. *)
Definition post_ballot_checkin_request (db : DB) (user : Z) (round tournament : Z)
    (POST : gmap string string) : outcome (DB * HttpResponse) :=
  match POST !! "venue" with
  | Some v => post_ballot_checkin db user round tournament v
  | None => Raise TypeError
  end.

(** ** Postponement *)

(** The view [toggle_postponed]. *)
Definition toggle_postponed (db : DB) (debate_id : Z) : outcome (DB * HttpResponse) :=
  match debates db !! debate_id with
  | None => Raise ModelDoesNotExist
  | Some debate =>
      let debate :=
        if decide (Debate.result_status debate = STATUS_POSTPONED)
        then Debate.set_result_status STATUS_NONE debate
        else Debate.set_result_status STATUS_POSTPONED debate in
      let db := save_debate debate_id debate db in
      Return (db, RedirectRound "results" (Debate.round debate))
  end.

(** Two toggles in a row. *)
Definition toggle_postponed_twice (db : DB) (debate_id : Z) : outcome (DB * HttpResponse) :=
  toggle_postponed db debate_id ≫= fun r => toggle_postponed r.1 debate_id.

(** ** Ballots status timeline *)

(** [datetime] values are microseconds since an epoch; a [timedelta] is
    normalised as Python does: [0 <= seconds < 86400] and
    [0 <= microseconds < 1000000]. The definitions of this section carry
    the arithmetic of the view out on exact rationals; [Float], in the next
    section, rounds as Python does. *)
Record timedelta := mk_timedelta { days : Z; seconds : Z; microseconds : Z }.

Definition datetime_sub (a b : Z) : timedelta :=
  let us := a - b in
  mk_timedelta (us / 86400000000) ((us mod 86400000000) / 1000000) (us mod 1000000).

Definition minutes_ago (now time : Z) : Q :=
  let time_difference := datetime_sub now time in
  (inject_Z (days time_difference * 1440) +
   inject_Z (seconds time_difference) / inject_Z 60)%Q.

(** Python's [int()]: truncation towards zero. *)
Definition int (q : Q) : Z := Z.quot (Qnum q) (Z.pos (Qden q)).

Definition intervals : Z := 20.

(** A sample [[stat[0], stat[1], stat[2], stat[3]]]: the checkpoint in whole
    minutes ago, then the debates with no ballot, with a draft ballot and
    with a confirmed ballot. *)
Record stat := mk_stat { stat_0 : Z; stat_1 : Z; stat_2 : Z; stat_3 : Z }.

Definition in_round (db : DB) (round : Z) (b : BallotSubmission.t) : Prop :=
  Debate.round <$> (debates db !! BallotSubmission.debate b) = Some round.

#[global] Instance in_round_dec db round b : Decision (in_round db round b).
Proof. unfold in_round. apply _. Defined.

Definition by_timestamp (x y : Z * BallotSubmission.t) : Prop :=
  BallotSubmission.timestamp x.2 <= BallotSubmission.timestamp y.2.

#[global] Instance by_timestamp_dec x y : Decision (by_timestamp x y).
Proof. unfold by_timestamp. apply _. Defined.

(** [list(BallotSubmission.objects.filter(debate__round=round).order_by('timestamp'))] *)
Definition round_ballots (db : DB) (round : Z) : list BallotSubmission.t :=
  snd <$> merge_sort by_timestamp
            (map_to_list (objects_filter (in_round db round) (ballotsubmissions db))).

Definition in_this_round (round : Z) (d : Debate.t) : Prop := Debate.round d = round.

#[global] Instance in_this_round_dec round d : Decision (in_this_round round d).
Proof. unfold in_this_round. apply _. Defined.

(** The body of the inner loop [for b in ballots]. *)
Definition count_ballot (db : DB) (now : Z) (time_period : Q)
    (st : stat) (b : BallotSubmission.t) : stat :=
  if Qle_bool time_period (minutes_ago now (BallotSubmission.timestamp b)) then
    match Debate.result_status <$> (debates db !! BallotSubmission.debate b) with
    | Some STATUS_DRAFT =>
        mk_stat (stat_0 st) (stat_1 st - 1) (stat_2 st + 1) (stat_3 st)
    | Some STATUS_CONFIRMED =>
        mk_stat (stat_0 st) (stat_1 st - 1) (stat_2 st) (stat_3 st + 1)
    | _ => st
    end
  else st.

Definition time_period (start_entry chunks : Q) (i : Z) : Q :=
  (inject_Z i * chunks + start_entry)%Q.

Definition ballots_stat (db : DB) (now : Z) (ballots : list BallotSubmission.t)
    (debates : Z) (time_period : Q) : stat :=
  foldl (count_ballot db now time_period) (mk_stat (int time_period) debates 0 0) ballots.

Definition ballots_stats (db : DB) (current_round : Z) (now : Z) : list stat :=
  let ballots := round_ballots db current_round in
  let debates := objects_count (in_this_round current_round) (debates db) in
  match ballots with
  | [] => []
  | first :: _ =>
      let start_entry := minutes_ago now (BallotSubmission.timestamp first) in
      let end_entry :=
        minutes_ago now (BallotSubmission.timestamp (List.last ballots first)) in
      let chunks := ((end_entry - start_entry) / inject_Z intervals)%Q in
      (fun i => ballots_stat db now ballots debates (time_period start_entry chunks i))
        <$> seqZ 0 (intervals + 1)
  end.

Definition stat_json (st : stat) : json :=
  JArr [JInt (stat_0 st); JInt (stat_1 st); JInt (stat_2 st); JInt (stat_3 st)].

(** The view [ballots_status]; [current_round] is [t.current_round]. *)
Definition ballots_status (db : DB) (current_round : Z) (now : Z) : HttpResponse :=
  JsonResponse (JArr (stat_json <$> ballots_stats db current_round now)).

(** A ballot counted at a checkpoint for a debate of the given status. *)
Definition entered_with (db : DB) (now : Z) (time_period : Q) (s : ResultStatus)
    (b : BallotSubmission.t) : Prop :=
  Qle_bool time_period (minutes_ago now (BallotSubmission.timestamp b)) = true /\
  Debate.result_status <$> (debates db !! BallotSubmission.debate b) = Some s.

#[global] Instance entered_with_dec db now time_period s b :
  Decision (entered_with db now time_period s b).
Proof. unfold entered_with. apply _. Defined.


(** ** Ballots status timeline, in double precision *)

(** The arithmetic of [ballots_status] as Python carries it out. A float is
    an IEEE 754 binary64 value, a [spec_float] with 53 bits of precision;
    every operation rounds to nearest, ties to even, and an integer operand
    is converted first. Where Python raises an exception instead of
    producing a value, on converting an integer beyond the largest double and
    on [int()] of an infinity or a NaN, the conversion gives the infinity and
    [int] gives 0: no time a [datetime] can hold comes near either. *)
Module Float.

Definition prec : Z := 53.
Definition emax : Z := 1024.

(** [float(z)] *)
Definition of_int (z : Z) : spec_float := binary_normalize prec emax z 0 false.

Definition add : spec_float -> spec_float -> spec_float := SFadd prec emax.
Definition sub : spec_float -> spec_float -> spec_float := SFsub prec emax.
Definition mul : spec_float -> spec_float -> spec_float := SFmul prec emax.
Definition div : spec_float -> spec_float -> spec_float := SFdiv prec emax.

(** [x >= y] and [x == y] *)
Definition ge (x y : spec_float) : bool := SFleb y x.


(** [int(x)]: truncation towards zero. *)
Definition int (x : spec_float) : Z :=
  match x with
  | S754_finite s m e => cond_Zopp s (Z.shiftl (Z.pos m) e)
  | _ => 0
  end.


Definition minutes_ago (now time : Z) : spec_float :=
  let time_difference := datetime_sub now time in
  add (of_int (days time_difference * 1440))
      (div (of_int (seconds time_difference)) (of_int 60)).

(** The body of the inner loop [for b in ballots]. *)
Definition count_ballot (db : DB) (now : Z) (time_period : spec_float)
    (st : stat) (b : BallotSubmission.t) : stat :=
  if ge (minutes_ago now (BallotSubmission.timestamp b)) time_period then
    match Debate.result_status <$> (debates db !! BallotSubmission.debate b) with
    | Some STATUS_DRAFT =>
        mk_stat (stat_0 st) (stat_1 st - 1) (stat_2 st + 1) (stat_3 st)
    | Some STATUS_CONFIRMED =>
        mk_stat (stat_0 st) (stat_1 st - 1) (stat_2 st) (stat_3 st + 1)
    | _ => st
    end
  else st.

Definition time_period (start_entry chunks : spec_float) (i : Z) : spec_float :=
  add (mul (of_int i) chunks) start_entry.

Definition ballots_stat (db : DB) (now : Z) (ballots : list BallotSubmission.t)
    (debates : Z) (time_period : spec_float) : stat :=
  foldl (count_ballot db now time_period) (mk_stat (int time_period) debates 0 0) ballots.

Definition ballots_stats (db : DB) (current_round : Z) (now : Z) : list stat :=
  let ballots := round_ballots db current_round in
  let debates := objects_count (in_this_round current_round) (debates db) in
  match ballots with
  | [] => []
  | first :: _ =>
      let start_entry := minutes_ago now (BallotSubmission.timestamp first) in
      let end_entry :=
        minutes_ago now (BallotSubmission.timestamp (List.last ballots first)) in
      let chunks := div (sub end_entry start_entry) (of_int intervals) in
      (fun i => ballots_stat db now ballots debates (time_period start_entry chunks i))
        <$> seqZ 0 (intervals + 1)
  end.

(** The view [ballots_status]; [current_round] is [t.current_round]. *)
Definition ballots_status (db : DB) (current_round : Z) (now : Z) : HttpResponse :=
  JsonResponse (JArr (stat_json <$> ballots_stats db current_round now)).

End Float.

#[global] Instance spec_float_eq_dec : EqDecision spec_float.
Proof. solve_decision. Defined.


(** ** Entering and confirming ballots *)

Module User.
Record t := mk { id : Z; is_superuser : bool }.
End User.

Module Tournament.
Record t := mk {
  id : Z;
  current_round : Z;
  disable_ballot_confirms : bool
}.
End Tournament.

Inductive Method := GET | POST.

Record HttpRequest (QueryDict : Type) := mk_request {
  method : Method;
  user : User.t;
  POST_data : QueryDict;
  ip_address : string
}.
Arguments mk_request {QueryDict} _ _ _ _.
Arguments method {QueryDict} _.
Arguments user {QueryDict} _.
Arguments POST_data {QueryDict} _.
Arguments ip_address {QueryDict} _.

(** The collaborators of the views that live in results/forms.py and
    results/models.py. The form is built from the ballot submission (its
    primary key is [None] until it is first saved) and [request.POST] only;
    [form_save] returns the database it leaves and the ballot submission
    object as the form has updated it. *)
Class BallotSetForm (QueryDict : Type) := {
  is_valid : DB -> option Z -> BallotSubmission.t -> QueryDict -> bool -> bool;
  form_save :
    DB -> option Z -> BallotSubmission.t -> QueryDict -> DB * Z * BallotSubmission.t;
  ballotsub_save : DB -> Z -> BallotSubmission.t -> DB
}.

(** The adjudicator sits on the debate as its chair. *)
Definition is_chair_of (debate : Z) (da : DebateAdjudicator.t) : Prop :=
  DebateAdjudicator.debate da = debate /\ DebateAdjudicator.type da = TYPE_CHAIR.

#[global] Instance is_chair_of_dec debate da : Decision (is_chair_of debate da).
Proof. unfold is_chair_of. apply _. Defined.

(** Modelled from the spec: [debate.adjudicators.has_chair] (adjallocation is
    not under src/): the panel assigned to the debate has a chair. *)
Definition has_chair (db : DB) (debate : Z) : bool :=
  bool_decide (objects_filter (is_chair_of debate) (debateadjudicators db) <> ∅).

Definition of_debate (debate : Z) (b : BallotSubmission.t) : Prop :=
  BallotSubmission.debate b = debate.

#[global] Instance of_debate_dec debate b : Decision (of_debate debate b).
Proof. unfold of_debate. apply _. Defined.

Definition not_discarded_of (debate : Z) (b : BallotSubmission.t) : Prop :=
  BallotSubmission.debate b = debate /\ BallotSubmission.discarded b = false.

#[global] Instance not_discarded_of_dec debate b : Decision (not_discarded_of debate b).
Proof. unfold not_discarded_of. apply _. Defined.

Definition by_version (x y : Z * BallotSubmission.t) : Prop :=
  BallotSubmission.version x.2 <= BallotSubmission.version y.2.

#[global] Instance by_version_dec x y : Decision (by_version x y).
Proof. unfold by_version. apply _. Defined.

(** [debate.ballotsubmission_set.order_by('version')], without the discarded
    ones unless the user is a superuser. *)
Definition all_ballotsubs (db : DB) (debate : Z) (superuser : bool) : list Z :=
  fst <$> merge_sort by_version
            (map_to_list
               (if superuser
                then objects_filter (of_debate debate) (ballotsubmissions db)
                else objects_filter (not_discarded_of debate) (ballotsubmissions db))).

Definition enter_results_template (superuser : bool) : string :=
  if superuser then "enter_results.html" else "assistant_enter_results.html".

Section views.
Context {QueryDict : Type} `{!BallotSetForm QueryDict}.

(** The view [edit_ballotset]. The loop that attaches
    [identical_ballotsub_versions] to the listed objects only decorates what
    the template shows and is left out. *)
Definition edit_ballotset (db : DB) (request : HttpRequest QueryDict)
    (t : Tournament.t) (now : Z) (ballotsub_id : Z) : outcome (DB * HttpResponse) :=
  match ballotsubmissions db !! ballotsub_id with
  | None => Raise Http404
  | Some ballotsub =>
      let debate_pk := BallotSubmission.debate ballotsub in
      match debates db !! debate_pk with
      | None => Raise ModelDoesNotExist
      | Some debate =>
          let superuser := User.is_superuser (user request) in
          let listed := all_ballotsubs db debate_pk superuser in
          let render_form (bound : bool) :=
            Return (db, Render (enter_results_template superuser)
              [("form", VForm bound);
               ("ballotsub", VBallotSub (Some ballotsub_id) ballotsub);
               ("debate", VRef debate_pk);
               ("all_ballotsubs", VQuerySet listed);
               ("disable_confirm",
                VBool (bool_decide (Some (User.id (user request)) =
                                    BallotSubmission.submitter ballotsub)
                       && negb (Tournament.disable_ballot_confirms t)
                       && negb superuser));
               ("round", VRef (Debate.round debate));
               ("not_singleton",
                VBool (bool_decide (filter (fun k => k <> ballotsub_id) listed <> [])));
               ("new", VBool false)]) in
          match method request with
          | POST =>
              if is_valid db (Some ballotsub_id) ballotsub (POST_data request) false
              then
                let '(db, pk, ballotsub) :=
                  form_save db (Some ballotsub_id) ballotsub (POST_data request) in
                let '(db, action_type) :=
                  if BallotSubmission.discarded ballotsub then
                    (add_message
                       (mk_message SUCCESS "Ballot set for %s discarded." debate_pk) db,
                     ACTION_TYPE_BALLOT_DISCARD)
                  else if BallotSubmission.confirmed ballotsub then
                    let ballotsub :=
                      BallotSubmission.set_confirmer
                        (Some (User.id (user request))) (Some now) ballotsub in
                    let db := ballotsub_save db pk ballotsub in
                    (add_message
                       (mk_message SUCCESS "Ballot set for %s confirmed." debate_pk) db,
                     ACTION_TYPE_BALLOT_CONFIRM)
                  else
                    (add_message
                       (mk_message SUCCESS "Edits to ballot set for %s saved." debate_pk)
                       db,
                     ACTION_TYPE_BALLOT_EDIT) in
                let db :=
                  log (ActionLogEntry.mk action_type (Some (User.id (user request))) None
                         (Some pk) (Some (ip_address request)) (Tournament.id t)) db in
                Return (db, RedirectRound "results" (Debate.round debate))
              else render_form true
          | GET => render_form false
          end
      end
  end.

Definition adjudicating_in (db : DB) (adjudicator round : Z)
    (da : DebateAdjudicator.t) : Prop :=
  DebateAdjudicator.adjudicator da = adjudicator /\
  Debate.round <$> (debates db !! DebateAdjudicator.debate da) = Some round.

#[global] Instance adjudicating_in_dec db adjudicator round da :
  Decision (adjudicating_in db adjudicator round da).
Proof. unfold adjudicating_in. apply _. Defined.

(** The view [public_new_ballotset]. A ballot submission that has not been
    saved carries version [0]; its timestamp is the instant of the request. *)
Definition public_new_ballotset (db : DB) (request : HttpRequest QueryDict)
    (t : Tournament.t) (now : Z) (adjudicator : Z) : outcome (DB * HttpResponse) :=
  match rounds db !! Tournament.current_round t with
  | None => Raise AttributeError
  | Some round =>
      if bool_decide (Round.draw_status round <> STATUS_RELEASED)
         || negb (Round.motions_released round)
      then
        Return (db, Render "public_enter_results_error.html"
          [("adjudicator", VRef adjudicator);
           ("message", VStr ("The draw and/or motions for the " +:+
                             "round haven't been released yet."))])
      else
        match objects_get (adjudicating_in db adjudicator (Tournament.current_round t))
                (debateadjudicators db) with
        | DoesNotExist =>
            Return (db, Render "public_enter_results_error.html"
              [("adjudicator", VRef adjudicator);
               ("message", VStr "It looks like you don't have a debate this round.")])
        | MultipleObjectsReturned => Raise ModelMultipleObjectsReturned
        | Got _ da =>
            let debate_pk := DebateAdjudicator.debate da in
            let ballotsub :=
              BallotSubmission.mk debate_pk 0 SUBMITTER_PUBLIC None false false now
                None None (ip_address request) 0 in
            let render_form (bound : bool) :=
              Return (db, Render "public_enter_results.html"
                [("form", VForm bound);
                 ("debate", VRef debate_pk);
                 ("round", VRef (Tournament.current_round t));
                 ("ballotsub", VBallotSub None ballotsub);
                 ("adjudicator", VRef adjudicator);
                 ("existing_ballotsubs",
                  VInt (objects_count (not_discarded_of debate_pk)
                          (ballotsubmissions db)))]) in
            match method request with
            | POST =>
                if is_valid db None ballotsub (POST_data request) true then
                  let '(db, pk, ballotsub) :=
                    form_save db None ballotsub (POST_data request) in
                  let db :=
                    log (ActionLogEntry.mk ACTION_TYPE_BALLOT_SUBMIT None None (Some pk)
                           (Some (ip_address request)) (Tournament.id t)) db in
                  Return (db, Render "public_success.html"
                                [("success_kind", VStr "ballot")])
                else render_form true
            | GET => render_form false
            end
        end
  end.

(** The view [new_ballotset]. *)
Definition new_ballotset (db : DB) (request : HttpRequest QueryDict)
    (t : Tournament.t) (now : Z) (debate_id : Z) : outcome (DB * HttpResponse) :=
  match debates db !! debate_id with
  | None => Raise Http404
  | Some debate =>
      let ballotsub :=
        BallotSubmission.mk debate_id 0 SUBMITTER_TABROOM (Some (User.id (user request)))
          false false now None None (ip_address request) 0 in
      if negb (has_chair db debate_id) then
        let db :=
          add_message
            (mk_message ERROR
               ("Whoops! The debate %s doesn't have a chair, " +:+
                "so you can't enter results for it.") debate_id) db in
        Return (db, RedirectRound "results" (Debate.round debate))
      else
        let superuser := User.is_superuser (user request) in
        let render_form (bound : bool) :=
          let listed := all_ballotsubs db debate_id superuser in
          Return (db, Render (enter_results_template superuser)
            [("form", VForm bound);
             ("ballotsub", VBallotSub None ballotsub);
             ("debate", VRef debate_id);
             ("round", VRef (Debate.round debate));
             ("all_ballotsubs", VQuerySet listed);
             ("not_singleton", VBool (bool_decide (listed <> [])));
             ("new", VBool true)]) in
        match method request with
        | POST =>
            if is_valid db None ballotsub (POST_data request) false then
              let '(db, pk, ballotsub) :=
                form_save db None ballotsub (POST_data request) in
              let db :=
                log (ActionLogEntry.mk ACTION_TYPE_BALLOT_CREATE
                       (Some (User.id (user request))) None (Some pk)
                       (Some (ip_address request)) (Tournament.id t)) db in
              let db :=
                add_message (mk_message SUCCESS "Ballot set for %s added." debate_id) db in
              Return (db, RedirectRound "results" (Debate.round debate))
            else render_form true
        | GET => render_form false
        end
  end.

End views.

(** [context[key]] of a rendered response. *)
Definition context_lookup (key : string) (response : HttpResponse) : option Value :=
  match response with
  | Render _ context => (fun r => r.2.2) <$> list_find (fun kv => kv.1 = key) context
  | _ => None
  end.

(** ** The confirmation protocol *)

(** The protocol itself is carried by [BallotSetForm.save] and
    [BallotSubmission.save], which are not under src/; it is modelled from
    section 4.1 of the specification. *)

Inductive ProtocolError :=
| MissingChairError
| SelfConfirmationError
| DiscardedSubmissionError
| NotFoundError.

(** The primary key the database gives the next row of a table. *)
Definition next_pk {A} (table : gmap Z A) : Z :=
  1 + map_fold (fun k _ acc => Z.max k acc) 0 table.

(** Modelled from the spec: [version] is "monotonically increasing (per
    debate, starting at 1)" and "never reused, including for discarded
    submissions": the next version is one more than the largest version any
    submission of the debate has. *)
Definition next_version (db : DB) (debate : Z) : Z :=
  1 + map_fold (fun _ b acc => Z.max (BallotSubmission.version b) acc) 0
        (objects_filter (of_debate debate) (ballotsubmissions db)).

Definition confirmed_of (debate : Z) (b : BallotSubmission.t) : Prop :=
  BallotSubmission.debate b = debate /\
  BallotSubmission.confirmed b = true /\ BallotSubmission.discarded b = false.

#[global] Instance confirmed_of_dec debate b : Decision (confirmed_of debate b).
Proof. unfold confirmed_of. apply _. Defined.

(** The number of non-discarded submissions of the debate with
    [confirmed = true]. *)
Definition confirmed_count (db : DB) (debate : Z) : Z :=
  objects_count (confirmed_of debate) (ballotsubmissions db).

(** Modelled from the spec: the status a debate derives from its submissions,
    "CONFIRMED if another non-discarded submission is confirmed, else
    AWAITING_CONFIRMATION if any non-discarded submission remains, else
    NO_RESULT". *)
Definition derived_status (db : DB) (debate : Z) : ResultStatus :=
  if bool_decide (objects_filter (confirmed_of debate) (ballotsubmissions db) <> ∅)
  then STATUS_CONFIRMED
  else if bool_decide
            (objects_filter (not_discarded_of debate) (ballotsubmissions db) <> ∅)
  then STATUS_DRAFT
  else STATUS_NONE.

Definition set_status (debate : Z) (s : ResultStatus) (db : DB) : DB :=
  set_debates (alter (Debate.set_result_status s) debate (debates db)) db.

(** Modelled from the spec: "any other submission for the same debate
    currently confirmed is unconfirmed (its confirmed set false,
    confirmer/confirm_timestamp cleared)". *)
Definition unconfirm (b : BallotSubmission.t) : BallotSubmission.t :=
  BallotSubmission.set_confirmer None None
    (BallotSubmission.set_flags false (BallotSubmission.discarded b) b).

Definition unconfirm_in (debate : Z) (b : BallotSubmission.t) : BallotSubmission.t :=
  if decide (BallotSubmission.debate b = debate) then unconfirm b else b.

(** Modelled from the spec: [BallotSubmission.save()], the write of one
    submission under the single-winner lock: saving a confirmed submission
    unconfirms every other submission of its debate. *)
Definition save_ballotsub (db : DB) (pk : Z) (b : BallotSubmission.t) : DB :=
  let others :=
    if BallotSubmission.confirmed b
    then unconfirm_in (BallotSubmission.debate b) <$> ballotsubmissions db
    else ballotsubmissions db in
  set_ballotsubmissions (<[pk := b]> others) db.

(** Modelled from the spec: the creation of a submission once its
    preconditions hold: it "allocates the next version for that debate",
    has "initial state confirmed=false, discarded=false", and the "debate
    status becomes AWAITING_CONFIRMATION if it was NO_RESULT". *)
Definition insert_submission (db : DB) (b : BallotSubmission.t) (content : Z)
  : DB * Z * BallotSubmission.t :=
  let debate := BallotSubmission.debate b in
  let pk := next_pk (ballotsubmissions db) in
  let b :=
    BallotSubmission.set_ballot_set content
      (BallotSubmission.set_flags false false
         (BallotSubmission.set_version (next_version db debate) b)) in
  let db := save_ballotsub db pk b in
  let db :=
    match Debate.result_status <$> (debates db !! debate) with
    | Some STATUS_NONE => set_status debate STATUS_DRAFT db
    | _ => db
    end in
  (db, pk, b).

(** Modelled from the spec: [createSubmission(debate, submitterType,
    submitterIdentity, originAddress, scoringContent)] of section 4.1. *)
Definition createSubmission (db : DB) (debate : Z) (submitterType : SubmitterType)
    (submitterIdentity : option Z) (originAddress : string) (scoringContent : Z)
    (now : Z) : ProtocolError + DB * Z :=
  match debates db !! debate with
  | None => inl NotFoundError
  | Some _ =>
      if negb (has_chair db debate) then inl MissingChairError
      else
        let '(db, pk, _) :=
          insert_submission db
            (BallotSubmission.mk debate 0 submitterType submitterIdentity false false
               now None None originAddress scoringContent) scoringContent in
        let kind :=
          match submitterType with
          | SUBMITTER_PUBLIC => ACTION_TYPE_BALLOT_SUBMIT
          | SUBMITTER_TABROOM => ACTION_TYPE_BALLOT_CREATE
          end in
        inr (log (ActionLogEntry.mk kind submitterIdentity None (Some pk)
                    (Some originAddress) 0) db, pk)
  end.

(** Modelled from the spec: [confirmSubmission(submission, confirmerIdentity,
    allowSelfConfirm)] of section 4.1. *)
Definition confirmSubmission (db : DB) (submission : Z) (confirmerIdentity : Z)
    (allowSelfConfirm : bool) (now : Z) : ProtocolError + DB :=
  match ballotsubmissions db !! submission with
  | None => inl NotFoundError
  | Some b =>
      if BallotSubmission.discarded b then inl DiscardedSubmissionError
      else if bool_decide (Some confirmerIdentity = BallotSubmission.submitter b)
              && negb allowSelfConfirm
      then inl SelfConfirmationError
      else
        let b :=
          BallotSubmission.set_confirmer (Some confirmerIdentity) (Some now)
            (BallotSubmission.set_flags true false b) in
        let db := save_ballotsub db submission b in
        let db := set_status (BallotSubmission.debate b) STATUS_CONFIRMED db in
        inr (log (ActionLogEntry.mk ACTION_TYPE_BALLOT_CONFIRM (Some confirmerIdentity)
                    None (Some submission) None 0) db)
  end.

(** Modelled from the spec: [discardSubmission(submission)] of section 4.1. *)
Definition discardSubmission (db : DB) (submission : Z) : ProtocolError + DB :=
  match ballotsubmissions db !! submission with
  | None => inl NotFoundError
  | Some b =>
      if BallotSubmission.discarded b then inr db
      else
        let b := BallotSubmission.set_confirmer None None
                   (BallotSubmission.set_flags false true b) in
        let db := save_ballotsub db submission b in
        let db :=
          set_status (BallotSubmission.debate b)
            (derived_status db (BallotSubmission.debate b)) db in
        inr (log (ActionLogEntry.mk ACTION_TYPE_BALLOT_DISCARD None None
                    (Some submission) None 0) db)
  end.

(** Modelled from the spec: an edit replaces the scoring content of a
    submission and leaves its version and its flags as they are. *)
Definition editSubmission (db : DB) (submission : Z) (scoringContent : Z)
  : ProtocolError + DB :=
  match ballotsubmissions db !! submission with
  | None => inl NotFoundError
  | Some b =>
      let db :=
        save_ballotsub db submission (BallotSubmission.set_ballot_set scoringContent b) in
      inr (log (ActionLogEntry.mk ACTION_TYPE_BALLOT_EDIT None None
                  (Some submission) None 0) db)
  end.

Inductive Operation :=
| Create (debate : Z) (submitterType : SubmitterType) (submitterIdentity : option Z)
         (originAddress : string) (scoringContent : Z) (now : Z)
| Confirm (submission : Z) (confirmerIdentity : Z) (allowSelfConfirm : bool) (now : Z)
| Discard (submission : Z)
| Edit (submission : Z) (scoringContent : Z).

(** One operation; a failing operation leaves the database as it was. *)
Definition perform (db : DB) (op : Operation) : DB :=
  match op with
  | Create debate ty who origin content now =>
      match createSubmission db debate ty who origin content now with
      | inr (db', _) => db'
      | inl _ => db
      end
  | Confirm submission who allow now =>
      match confirmSubmission db submission who allow now with
      | inr db' => db'
      | inl _ => db
      end
  | Discard submission =>
      match discardSubmission db submission with
      | inr db' => db'
      | inl _ => db
      end
  | Edit submission content =>
      match editSubmission db submission content with
      | inr db' => db'
      | inl _ => db
      end
  end.

Definition run (db : DB) (ops : list Operation) : DB := foldl perform db ops.

(** No two submissions of one debate are confirmed and not discarded. *)
Definition single_winner (table : gmap Z BallotSubmission.t) : Prop :=
  forall k1 k2 b1 b2,
    table !! k1 = Some b1 -> table !! k2 = Some b2 ->
    BallotSubmission.debate b1 = BallotSubmission.debate b2 ->
    BallotSubmission.confirmed b1 = true -> BallotSubmission.discarded b1 = false ->
    BallotSubmission.confirmed b2 = true -> BallotSubmission.discarded b2 = false ->
    k1 = k2.

(** *** The form used to exercise the views *)

(** What [request.POST] carries for the ballot form: the scores (absent when
    they do not validate) and the two check boxes. *)
Record BallotPost := mk_post {
  post_scores : option Z;
  post_confirmed : bool;
  post_discarded : bool
}.

(** Modelled from the spec: [BallotSetForm] (results/forms.py is not under
    src/). The form validates the scores and never accepts a submission that
    is both confirmed and discarded ("discarded = true implies confirmed =
    false"); saving a new submission creates it, saving an existing one
    writes the posted scores and flags and re-derives the debate status. *)
#[global] Instance spec_form : BallotSetForm BallotPost := {|
  is_valid _ _ _ post _ :=
    bool_decide (is_Some (post_scores post))
    && negb (post_confirmed post && post_discarded post);
  form_save db pk b post :=
    let content := default 0 (post_scores post) in
    match pk with
    | None => insert_submission db b content
    | Some k =>
        let b :=
          BallotSubmission.set_ballot_set content
            (BallotSubmission.set_flags (post_confirmed post) (post_discarded post) b) in
        let db := save_ballotsub db k b in
        let db :=
          set_status (BallotSubmission.debate b)
            (derived_status db (BallotSubmission.debate b)) db in
        (db, k, b)
    end;
  ballotsub_save := save_ballotsub
|}.

(** The ballots [all_ballotsubs] lists for a user. *)
Definition listed (superuser : bool) (debate : Z) (b : BallotSubmission.t) : Prop :=
  BallotSubmission.debate b = debate /\
  (superuser = true \/ BallotSubmission.discarded b = false).

(** ** Looking a ballot up before checking it in *)

(** [obj[key]] of a JSON object. *)
Definition json_get (key : string) (j : json) : option json :=
  match j with
  | JObj fields => (fun r => r.2.2) <$> list_find (fun kv => kv.1 = key) fields
  | _ => None
  end.

Definition not_trainee (ta : AdjudicatorType * string) : Prop := ta.1 <> TYPE_TRAINEE.

#[global] Instance not_trainee_dec ta : Decision (not_trainee ta).
Proof. unfold not_trainee. apply _. Defined.

Section checkin_details.
(** [debate.adjudicators] (adjallocation is not under src/): the pairs
    [(type, adj.name)] that iterating over the panel of a debate yields. *)
Context (adjudicators : DB -> Z -> list (AdjudicatorType * string)).

(** The view [ballot_checkin_get_details]; it writes nothing. *)
Definition ballot_checkin_get_details (db : DB) (round : Z) (v : string)
  : outcome HttpResponse :=
  match get_debate_from_ballot_checkin_request db round v with
  | Raise (CheckinError e) =>
      Return (JsonResponse (JObj [("exists", JBool false); ("message", JStr (str e))]))
  | Raise e => Raise e
  | Return (debate_pk, debate, venue) =>
      let adjs := adjudicators db debate_pk in
      let adj_names := snd <$> filter not_trainee adjs in
      Return (JsonResponse
                (JObj [("exists", JBool true);
                       ("venue", JStr (Venue.name venue));
                       ("aff_team", JStr (Team.short_name (Debate.aff_team debate)));
                       ("neg_team", JStr (Team.short_name (Debate.neg_team debate)));
                       ("num_adjs", JInt (Z.of_nat (length adj_names)));
                       ("adjudicators", JArr (JStr <$> adj_names));
                       ("ballots_left", JInt (ballot_checkin_number_left db round))]))
  end.
End checkin_details.

(** ** Latest results *)

Definition by_latest (x y : Z * BallotSubmission.t) : Prop :=
  BallotSubmission.timestamp y.2 <= BallotSubmission.timestamp x.2.

#[global] Instance by_latest_dec x y : Decision (by_latest x y).
Proof. unfold by_latest. apply _. Defined.

(** A ballot at least as recent as another. *)
Definition newer_first (x y : BallotSubmission.t * Debate.t) : Prop :=
  BallotSubmission.timestamp y.1 <= BallotSubmission.timestamp x.1.

Section latest_results.
(** What the view reads from code that is not under src/: the [tournament]
    column of a round, whether [b.ballot_set.winner] is the affirmative team
    of the debate, and the [naturaltime] template filter. *)
Context (round_tournament : Z -> option Z)
        (aff_won : BallotSubmission.t -> bool)
        (naturaltime : Z -> string).

Definition confirmed_in (db : DB) (t : Z) (b : BallotSubmission.t) : Prop :=
  (Debate.round <$> (debates db !! BallotSubmission.debate b)) ≫= round_tournament
  = Some t /\
  BallotSubmission.confirmed b = true.

#[global] Instance confirmed_in_dec db t b : Decision (confirmed_in db t b).
Proof. unfold confirmed_in. apply _. Defined.

(** [select_related('debate')]: a ballot comes with its debate. *)
Definition with_debate (db : DB) (kb : Z * BallotSubmission.t)
  : option (BallotSubmission.t * Debate.t) :=
  d ← debates db !! BallotSubmission.debate kb.2; Some (kb.2, d).

(** [BallotSubmission.objects.filter(debate__round__tournament=t,
    confirmed=True).order_by('-timestamp')[:15].select_related('debate')] *)
Definition latest_ballots (db : DB) (t : Z) : list (BallotSubmission.t * Debate.t) :=
  take 15
    (omap (with_debate db)
       (merge_sort by_latest
          (map_to_list (objects_filter (confirmed_in db t) (ballotsubmissions db))))).

(** The body of the loop [for b in ballots]. *)
Definition latest_result (bd : BallotSubmission.t * Debate.t) : json :=
  let '(b, debate) := bd in
  let '(winner, looser) :=
    if aff_won b
    then (Team.short_name (Debate.aff_team debate) +:+ " (Aff)",
          Team.short_name (Debate.neg_team debate) +:+ " (Neg)")
    else (Team.short_name (Debate.neg_team debate) +:+ " (Neg)",
          Team.short_name (Debate.aff_team debate) +:+ " (Aff)") in
  JObj [("user", JStr (winner +:+ " beat " +:+ looser));
        ("timestamp", JStr (naturaltime (BallotSubmission.timestamp b)))].

(** The view [latest_results]. *)
Definition latest_results (db : DB) (t : Z) : HttpResponse :=
  JsonResponse (JArr (latest_result <$> latest_ballots db t)).
End latest_results.

(** ** Public results *)

Inductive ResultsTable := TableByDebate | TableByTeam.

Inductive PublicResultsPage :=
| PublicResultsSilent
| PublicResultsNotAvailable
| PublicResults (table : ResultsTable) (view_type : string).

(** [PublicResultsForRoundView.get_table]: which of [get_table_by_debate]
    and [get_table_by_team] builds the table. *)
Definition get_table (session : gmap string string) : ResultsTable :=
  let view_type := default "team" (session !! "results_view") in
  if decide (view_type = "debate") then TableByDebate else TableByTeam.

Section public_results.
(** The columns [seq] and [silent] of a round, the sequence number of the
    tournament's current round and the preference [all_results_released]
    (tournaments is not under src/). *)
Context (seq : Z -> Z) (silent : Z -> bool)
        (current_round_seq : Z) (all_results_released : bool).

(** [PublicResultsForRoundView.get] with the [get_context_data] and
    [get_table] it ends in; [GET_params] is [request.GET] and the session is
    returned as the view leaves it. *)
Definition PublicResultsForRoundView_get (round : Z)
    (GET_params session : gmap string string)
  : gmap string string * PublicResultsPage :=
  if silent round && negb all_results_released then
    (session, PublicResultsSilent)
  else if bool_decide (current_round_seq <= seq round) && negb all_results_released then
    (session, PublicResultsNotAvailable)
  else
    let session :=
      match GET_params !! "view" with
      | Some view =>
          if decide (view ∈ ["team"; "debate"])
          then <["results_view" := view]> session
          else session
      | None => session
      end in
    (session,
     PublicResults (get_table session) (default "team" (session !! "results_view"))).

(** [debate.confirmed_ballot] is read from code that is not under src/. *)
Context (confirmed_ballot : DB -> Z -> option Z).

(** The view [public_ballots_view]. *)
Definition public_ballots_view (db : DB) (debate_id : Z) : outcome HttpResponse :=
  match debates db !! debate_id with
  | None => Raise Http404
  | Some debate =>
      if decide (Debate.result_status debate <> STATUS_CONFIRMED) then Raise Http404
      else
        let round := Debate.round debate in
        if (bool_decide (current_round_seq < seq round) || silent round)
           && negb all_results_released
        then Raise Http404
        else
          match confirmed_ballot db debate_id with
          | None => Raise Http404
          | Some ballot_submission =>
              Return (Render "public_ballot_set.html"
                        [("debate", VRef debate_id);
                         ("ballot_set", VRef ballot_submission)])
          end
  end.
End public_results.

(** ** Scenarios *)

(** Round 1 has debate 5 at venue "Room 1", not yet checked in. *)
Definition checkin_db : DB :=
  mkDB {[1 := Venue.mk "Room 1"]}
       {[5 := Debate.mk 1 (Some 1) (Team.mk "Aff") (Team.mk "Neg") STATUS_NONE false]}
       ∅ ∅ ∅ [] [].

(** Debate 1 of round 1 has a confirmed ballot and status confirmed. *)
Definition confirmed_db : DB :=
  mkDB ∅
       {[1 := Debate.mk 1 None (Team.mk "Aff") (Team.mk "Neg") STATUS_CONFIRMED false]}
       ∅ ∅
       {[1 := BallotSubmission.mk 1 1 SUBMITTER_TABROOM (Some 7) true false 0 (Some 8)
                (Some 0) "10.0.0.1" 0]}
       [] [].

(** Debate 1 of round 1 has one unconfirmed ballot and status draft. *)
Definition draft_db : DB :=
  mkDB ∅
       {[1 := Debate.mk 1 None (Team.mk "Aff") (Team.mk "Neg") STATUS_DRAFT false]}
       ∅ ∅
       {[1 := BallotSubmission.mk 1 1 SUBMITTER_TABROOM (Some 7) false false 0 None
                None "10.0.0.1" 0]}
       [] [].

Definition minute : Z := 60000000.

Definition histogram_now : Z := 100 * minute.

(** Round 1 has ten debates; debates 1, 2 and 3 are confirmed, each with
    one confirmed ballot, entered 30, 20 and 10 minutes ago. *)
Definition histogram_db : DB :=
  mkDB ∅
       (list_to_map
          ((fun i =>
              (i, Debate.mk 1 None (Team.mk "Aff") (Team.mk "Neg")
                    (if bool_decide (i <= 3) then STATUS_CONFIRMED else STATUS_NONE)
                    false)) <$> seqZ 1 10))
       ∅ ∅
       (list_to_map
          ((fun i =>
              (i, BallotSubmission.mk i 1 SUBMITTER_TABROOM (Some 7) true false
                    (histogram_now - (40 - 10 * i) * minute) (Some 8)
                    (Some histogram_now) "10.0.0.1" 0)) <$> seqZ 1 3))
       [] [].


(** Round 1, released with its motions, has debate 1, to which adjudicator 9
    is assigned as chair; no ballot has been entered. *)
Definition chaired_db : DB :=
  mkDB ∅
       {[1 := Debate.mk 1 None (Team.mk "Aff") (Team.mk "Neg") STATUS_NONE false]}
       {[1 := DebateAdjudicator.mk 1 9 TYPE_CHAIR]}
       {[1 := Round.mk STATUS_RELEASED true]}
       ∅ [] [].

(** The same round, but adjudicator 9 sits on debate 1 as a panellist and
    the debate has no chair. *)
Definition chairless_db : DB :=
  mkDB ∅
       {[1 := Debate.mk 1 None (Team.mk "Aff") (Team.mk "Neg") STATUS_NONE false]}
       {[1 := DebateAdjudicator.mk 1 9 TYPE_PANEL]}
       {[1 := Round.mk STATUS_RELEASED true]}
       ∅ [] [].

Definition tournament_1 : Tournament.t := Tournament.mk 1 1 false.

(** Two ballots are entered for debate 1 and confirmed one after the other. *)
Definition protocol_ops : list Operation :=
  [Create 1 SUBMITTER_TABROOM (Some 7) "10.0.0.1" 10 0;
   Create 1 SUBMITTER_PUBLIC None "10.0.0.2" 11 1;
   Confirm 1 8 false 2;
   Confirm 2 8 false 3].

(** User 7, not a superuser, posts a valid ballot form. *)
Definition staff_post (confirmed discarded : bool) : HttpRequest BallotPost :=
  mk_request POST (User.mk 7 false) (mk_post (Some 5) confirmed discarded) "10.0.0.1".

Definition staff_get : HttpRequest BallotPost :=
  mk_request GET (User.mk 7 false) (mk_post None false false) "10.0.0.1".

(** A public request carries no user of interest to the view. *)
Definition public_post : HttpRequest BallotPost :=
  mk_request POST (User.mk 0 false) (mk_post (Some 5) false false) "10.0.0.2".

(** A form that asks for a password which no request carries: it accepts
    what [spec_form] accepts, but only where it is built without a
    password. *)
Definition password_form : BallotSetForm BallotPost := {|
  is_valid db pk b post password := negb password && is_valid db pk b post password;
  form_save := form_save;
  ballotsub_save := ballotsub_save
|}.

(** Two venues whose names differ only in case. *)
Definition twin_venues_db : DB :=
  mkDB {[1 := Venue.mk "Room 1"; 2 := Venue.mk "ROOM 1"]}
       {[5 := Debate.mk 1 (Some 1) (Team.mk "Aff") (Team.mk "Neg") STATUS_NONE false]}
       ∅ ∅ ∅ [] [].

(** Round 1 has debate 5 at "Room 1" and debate 6 at "Room 2". *)
Definition two_rooms_db : DB :=
  mkDB {[1 := Venue.mk "Room 1"; 2 := Venue.mk "Room 2"]}
       {[5 := Debate.mk 1 (Some 1) (Team.mk "Aff") (Team.mk "Neg") STATUS_NONE false;
         6 := Debate.mk 1 (Some 2) (Team.mk "Pro") (Team.mk "Con") STATUS_NONE false]}
       ∅ ∅ ∅ [] [].


(** Round 1 has its draw released but not its motions; adjudicator 9 chairs
    debate 1. *)
Definition unreleased_db : DB :=
  mkDB ∅
       {[1 := Debate.mk 1 None (Team.mk "Aff") (Team.mk "Neg") STATUS_NONE false]}
       {[1 := DebateAdjudicator.mk 1 9 TYPE_CHAIR]}
       {[1 := Round.mk STATUS_RELEASED false]}
       ∅ [] [].

(** Debate 1 has three ballots: version 1 discarded, versions 2 and 3 not. *)
Definition versions_db : DB :=
  mkDB ∅
       {[1 := Debate.mk 1 None (Team.mk "Aff") (Team.mk "Neg") STATUS_DRAFT false]}
       ∅ ∅
       (list_to_map
          ((fun i =>
              (10 - i, BallotSubmission.mk 1 i SUBMITTER_TABROOM (Some 7) false
                         (bool_decide (i = 1)) 0 None None "10.0.0.1" 0))
             <$> seqZ 1 3))
       [] [].

Definition second : Z := 1000000.


(** * Properties *)

(** ** Queries *)

Section query_facts.
Context {A : Type} (P : A -> Prop) `{!forall x, Decision (P x)}.

Lemma objects_filter_lookup (table : gmap Z A) k x :
  objects_filter P table !! k = Some x <-> table !! k = Some x /\ P x.
Proof. unfold objects_filter. by rewrite map_lookup_filter_Some. Qed.

Lemma objects_get_Got (table : gmap Z A) k x :
  objects_get P table = Got k x <-> objects_filter P table = {[k := x]}.
Proof.
  unfold objects_get. split.
  - intros Hget. rewrite <- (list_to_map_to_list (objects_filter P table)).
    destruct (map_to_list (objects_filter P table)) as [|[k' x'] [|? ?]];
      simplify_eq/=. by rewrite insert_empty.
  - intros ->. by rewrite map_to_list_singleton.
Qed.

Lemma objects_get_DoesNotExist (table : gmap Z A) :
  objects_get P table = DoesNotExist <-> objects_filter P table = ∅.
Proof.
  unfold objects_get. rewrite <- map_to_list_empty_iff.
  destruct (map_to_list (objects_filter P table)) as [|[k' x'] [|? ?]];
    split; intros; simplify_eq/=; done.
Qed.

Lemma objects_filter_empty (table : gmap Z A) :
  objects_filter P table = ∅ <-> forall k x, table !! k = Some x -> ~ P x.
Proof.
  rewrite map_empty. split.
  - intros Hnone k x Hk HP. specialize (Hnone k).
    assert (objects_filter P table !! k = Some x) as Hin
      by (by apply objects_filter_lookup).
    congruence.
  - intros Hall k. apply eq_None_not_Some. intros [x Hx].
    apply objects_filter_lookup in Hx as [Hk HP]. by eapply Hall.
Qed.

Lemma objects_get_found (table : gmap Z A) k x :
  objects_get P table = Got k x -> table !! k = Some x /\ P x.
Proof.
  intros Hget%objects_get_Got. apply objects_filter_lookup.
  rewrite Hget. apply lookup_singleton_eq.
Qed.

(** Saving a row that still matches keeps it the single match. *)
Lemma objects_get_save (table : gmap Z A) k x y :
  objects_get P table = Got k x -> P y -> objects_get P (<[k := y]> table) = Got k y.
Proof.
  intros Hget%objects_get_Got HP. apply objects_get_Got.
  unfold objects_filter in *. rewrite map_filter_insert_True by done.
  rewrite Hget. apply insert_singleton_eq.
Qed.
End query_facts.

(** ** Physical ballot check-in *)

Lemma lower_idempotent s : lower (lower s) = lower s.
Proof.
  induction s as [|c s IH]; [done|]. simpl. f_equal; [|done].
  unfold lower_ascii.
  destruct ((65 <=? nat_of_ascii c)%nat && (nat_of_ascii c <=? 90)%nat) eqn:Hc.
  - apply andb_true_iff in Hc as [Hlo%Nat.leb_le Hhi%Nat.leb_le].
    rewrite nat_ascii_embedding by lia.
    destruct ((65 <=? nat_of_ascii c + 32)%nat &&
              (nat_of_ascii c + 32 <=? 90)%nat) eqn:Hc'; [|done].
    apply andb_true_iff in Hc' as [_ Hhi'%Nat.leb_le]. lia.
  - by rewrite Hc.
Qed.

Lemma venue_lookup_iexact (db : DB) (v v' : string) :
  lower v' = lower v ->
  objects_get (venue_named v') (venues db) = objects_get (venue_named v) (venues db).
Proof.
  intros Hv. unfold objects_get, objects_filter.
  replace (filter (fun kv : Z * Venue.t => venue_named v' kv.2) (venues db))
    with (filter (fun kv : Z * Venue.t => venue_named v kv.2) (venues db)); [done|].
  apply map_filter_ext. intros k x _. unfold venue_named, iexact. by rewrite Hv.
Qed.

Lemma checkin_no_venue (db : DB) (round : Z) (v : string) :
  (forall k venue, venues db !! k = Some venue -> ~ iexact (Venue.name venue) v) ->
  get_debate_from_ballot_checkin_request db round v
  = Raise (CheckinError (VenueNotFoundError v)).
Proof.
  intros Hnone. unfold get_debate_from_ballot_checkin_request.
  by rewrite (proj2 (objects_get_DoesNotExist _ _)) by (by apply objects_filter_empty).
Qed.

Lemma checkin_no_debate (db : DB) (round : Z) (v : string) vk venue :
  objects_get (venue_named v) (venues db) = Got vk venue ->
  (forall k d, debates db !! k = Some d -> ~ debate_at round vk d) ->
  get_debate_from_ballot_checkin_request db round v
  = Raise (CheckinError (NoDebateAtVenueError (Venue.name venue))).
Proof.
  intros Hv Hnone. unfold get_debate_from_ballot_checkin_request. rewrite Hv.
  by rewrite (proj2 (objects_get_DoesNotExist _ _)) by (by apply objects_filter_empty).
Qed.

Lemma checkin_resolved (db : DB) (round : Z) (v : string) vk venue dk d :
  objects_get (venue_named v) (venues db) = Got vk venue ->
  objects_get (debate_at round vk) (debates db) = Got dk d ->
  get_debate_from_ballot_checkin_request db round v
  = if Debate.ballot_in d
    then Raise (CheckinError (AlreadyCheckedInError (Venue.name venue)))
    else Return (dk, d, venue).
Proof.
  intros Hv Hd. unfold get_debate_from_ballot_checkin_request. by rewrite Hv, Hd.
Qed.

(** What a request that resolves a debate came from. *)
Lemma checkin_Return_inv (db : DB) (round : Z) (v : string) dk d venue :
  get_debate_from_ballot_checkin_request db round v = Return (dk, d, venue) ->
  exists vk,
    objects_get (venue_named v) (venues db) = Got vk venue /\
    objects_get (debate_at round vk) (debates db) = Got dk d /\
    Debate.ballot_in d = false.
Proof.
  unfold get_debate_from_ballot_checkin_request.
  destruct (objects_get (venue_named v) (venues db)) as [vk venue'| |] eqn:Hv;
    [|done..].
  destruct (objects_get (debate_at round vk) (debates db)) as [dk' d'| |] eqn:Hd;
    [|done..].
  destruct (Debate.ballot_in d') eqn:Hin; [done|].
  intros ?; simplify_eq. by exists vk.
Qed.

Lemma post_ballot_checkin_success (db : DB) user round tournament v dk d venue :
  get_debate_from_ballot_checkin_request db round v = Return (dk, d, venue) ->
  exists response,
    post_ballot_checkin db user round tournament v
    = Return (log (ActionLogEntry.mk ACTION_TYPE_BALLOT_CHECKIN (Some user) (Some dk)
                     None None tournament)
                (save_debate dk (Debate.set_ballot_in true d) db), response).
Proof. intros Hget. unfold post_ballot_checkin. rewrite Hget. eauto. Qed.

Lemma post_ballot_checkin_denied (db : DB) user round tournament v e :
  get_debate_from_ballot_checkin_request db round v = Raise (CheckinError e) ->
  post_ballot_checkin db user round tournament v
  = Return (db, JsonResponse (JObj [("exists", JBool false); ("message", JStr (str e))])).
Proof. intros Hget. unfold post_ballot_checkin. by rewrite Hget. Qed.

(** C4. The check-in looks the venue up without regard to case. It is
    refused with [VenueNotFoundError] when no venue has the name, with
    [NoDebateAtVenueError] when the venue found has no debate in the round,
    and with [AlreadyCheckedInError] when the debate found has [ballot_in]
    set. When it succeeds the debate is stored with [ballot_in = true], and
    the same check-in repeated at once is refused with
    [AlreadyCheckedInError]. *)
Theorem checkin_resolution_and_errors (db : DB) (user round tournament : Z) (v : string) :
  (forall v', lower v' = lower v ->
     objects_get (venue_named v') (venues db) = objects_get (venue_named v) (venues db)) /\
  ((forall k venue, venues db !! k = Some venue -> ~ iexact (Venue.name venue) v) ->
   get_debate_from_ballot_checkin_request db round v
   = Raise (CheckinError (VenueNotFoundError v))) /\
  (forall vk venue,
     objects_get (venue_named v) (venues db) = Got vk venue ->
     ((forall k d, debates db !! k = Some d -> ~ debate_at round vk d) ->
      get_debate_from_ballot_checkin_request db round v
      = Raise (CheckinError (NoDebateAtVenueError (Venue.name venue)))) /\
     (forall dk d,
        objects_get (debate_at round vk) (debates db) = Got dk d ->
        (Debate.ballot_in d = true ->
         get_debate_from_ballot_checkin_request db round v
         = Raise (CheckinError (AlreadyCheckedInError (Venue.name venue)))) /\
        (Debate.ballot_in d = false ->
         exists db' response,
           post_ballot_checkin db user round tournament v = Return (db', response) /\
           Debate.ballot_in <$> (debates db' !! dk) = Some true /\
           get_debate_from_ballot_checkin_request db' round v
           = Raise (CheckinError (AlreadyCheckedInError (Venue.name venue))) /\
           post_ballot_checkin db' user round tournament v
           = Return (db', JsonResponse
                            (JObj [("exists", JBool false);
                                   ("message",
                                    JStr (str (AlreadyCheckedInError
                                                 (Venue.name venue))))]))))).
Proof.
  split; [intros v'; apply venue_lookup_iexact|].
  split; [apply checkin_no_venue|].
  intros vk venue Hv. split; [by apply checkin_no_debate|].
  intros dk d Hd. pose proof (checkin_resolved db round v vk venue dk d Hv Hd) as Hres.
  split; intros Hin; rewrite Hin in Hres; [done|].
  destruct (post_ballot_checkin_success db user round tournament v dk d venue Hres)
    as [response Hpost].
  eexists _, response. split; [exact Hpost|].
  assert (get_debate_from_ballot_checkin_request
            (log (ActionLogEntry.mk ACTION_TYPE_BALLOT_CHECKIN (Some user) (Some dk)
                    None None tournament)
               (save_debate dk (Debate.set_ballot_in true d) db)) round v
          = Raise (CheckinError (AlreadyCheckedInError (Venue.name venue)))) as Hagain.
  { rewrite (checkin_resolved _ round v vk venue dk (Debate.set_ballot_in true d));
      [done|exact Hv|].
    simpl. apply objects_get_save with (x := d); [done|].
    by apply objects_get_found in Hd as [_ Hat]. }
  split; [simpl; by rewrite lookup_insert_eq|].
  split; [exact Hagain|]. by apply post_ballot_checkin_denied.
Qed.

Lemma checkin_resolution_and_errors_witness :
  exists db' response,
    post_ballot_checkin checkin_db 7 1 1 "room 1" = Return (db', response) /\
    Debate.ballot_in <$> (debates db' !! 5) = Some true /\
    get_debate_from_ballot_checkin_request db' 1 "room 1"
    = Raise (CheckinError (AlreadyCheckedInError "Room 1")) /\
    post_ballot_checkin db' 7 1 1 "room 1"
    = Return (db', JsonResponse
                     (JObj [("exists", JBool false);
                            ("message",
                             JStr (str (AlreadyCheckedInError "Room 1")))])).
Proof.
  destruct (checkin_resolution_and_errors checkin_db 7 1 1 "room 1") as (_ & _ & H).
  destruct (H 1 (Venue.mk "Room 1")) as [_ H']; [vm_compute; reflexivity|].
  destruct (H' 5 (Debate.mk 1 (Some 1) (Team.mk "Aff") (Team.mk "Neg") STATUS_NONE false))
    as [_ H'']; [vm_compute; reflexivity|].
  apply H''. reflexivity.
Defined.

(** C9. A check-in that is refused, or that stops on an exception, writes
    nothing: the database it leaves is the one it was given, so every
    debate keeps its [ballot_in] flag and all its other fields. A check-in
    that succeeds rewrites the debate it resolved with [ballot_in = true]
    and all other fields as they were, leaves every other debate and every
    other table as they were, and appends one entry to the action log. *)
Theorem checkin_frame (db : DB) (user round tournament : Z) (v : string) :
  (forall e,
     get_debate_from_ballot_checkin_request db round v = Raise e ->
     (exists response,
        post_ballot_checkin db user round tournament v = Return (db, response)) \/
     post_ballot_checkin db user round tournament v = Raise e) /\
  (forall dk d venue,
     get_debate_from_ballot_checkin_request db round v = Return (dk, d, venue) ->
     exists db' response,
       post_ballot_checkin db user round tournament v = Return (db', response) /\
       debates db !! dk = Some d /\
       debates db'
       = <[dk := Debate.mk (Debate.round d) (Debate.venue d) (Debate.aff_team d)
                   (Debate.neg_team d) (Debate.result_status d) true]> (debates db) /\
       (forall k, k <> dk -> debates db' !! k = debates db !! k) /\
       venues db' = venues db /\
       debateadjudicators db' = debateadjudicators db /\
       rounds db' = rounds db /\
       ballotsubmissions db' = ballotsubmissions db /\
       messages db' = messages db /\
       actionlog db'
       = actionlog db ++ [ActionLogEntry.mk ACTION_TYPE_BALLOT_CHECKIN (Some user)
                            (Some dk) None None tournament]).
Proof.
  split.
  - intros e Hget. unfold post_ballot_checkin. rewrite Hget.
    destruct e; eauto.
  - intros dk d venue Hget.
    destruct (post_ballot_checkin_success db user round tournament v dk d venue Hget)
      as [response Hpost].
    apply checkin_Return_inv in Hget as (vk & _ & Hd & _).
    apply objects_get_found in Hd as [Hdk _].
    eexists _, response. split; [exact Hpost|]. simpl.
    split; [done|]. split; [done|].
    split; [intros k Hk; by rewrite lookup_insert_ne|]. done.
Qed.

Lemma checkin_frame_witness :
  ((exists response,
      post_ballot_checkin checkin_db 7 1 1 "Room 2" = Return (checkin_db, response)) \/
   post_ballot_checkin checkin_db 7 1 1 "Room 2"
   = Raise (CheckinError (VenueNotFoundError "Room 2"))) /\
  (exists db' response,
     post_ballot_checkin checkin_db 7 1 1 "ROOM 1" = Return (db', response) /\
     debates db' !! 5
     = Some (Debate.mk 1 (Some 1) (Team.mk "Aff") (Team.mk "Neg") STATUS_NONE true) /\
     venues db' = venues checkin_db).
Proof.
  split.
  - apply (proj1 (checkin_frame checkin_db 7 1 1 "Room 2")). vm_compute. reflexivity.
  - destruct (proj2 (checkin_frame checkin_db 7 1 1 "ROOM 1") 5
                (Debate.mk 1 (Some 1) (Team.mk "Aff") (Team.mk "Neg") STATUS_NONE false)
                (Venue.mk "Room 1"))
      as (db' & response & Hpost & _ & Hdebates & _ & Hvenues & _);
      [vm_compute; reflexivity|].
    exists db', response. split; [exact Hpost|]. split; [|exact Hvenues].
    rewrite Hdebates. apply lookup_insert_eq.
Defined.

(** ** Postponement *)

Lemma toggle_postponed_found (db : DB) (debate_id : Z) (d : Debate.t) :
  debates db !! debate_id = Some d ->
  toggle_postponed db debate_id
  = Return (save_debate debate_id
              (Debate.set_result_status
                 (if decide (Debate.result_status d = STATUS_POSTPONED)
                  then STATUS_NONE else STATUS_POSTPONED) d) db,
            RedirectRound "results" (Debate.round d)).
Proof.
  intros Hd. unfold toggle_postponed. rewrite Hd. by case_decide.
Qed.

Lemma save_debate_same (db : DB) (debate_id : Z) (d : Debate.t) :
  debates db !! debate_id = Some d -> save_debate debate_id d db = db.
Proof.
  intros Hd. destruct db. unfold save_debate, set_debates. simpl in *.
  by rewrite insert_id.
Qed.

Lemma save_debate_twice (db : DB) (debate_id : Z) (d d' : Debate.t) :
  save_debate debate_id d' (save_debate debate_id d db) = save_debate debate_id d' db.
Proof.
  destruct db. unfold save_debate, set_debates. simpl. by rewrite insert_insert_eq.
Qed.

Lemma toggle_postponed_twice_status (db : DB) (debate_id : Z) (d : Debate.t) :
  debates db !! debate_id = Some d ->
  toggle_postponed_twice db debate_id
  = Return (save_debate debate_id
              (Debate.set_result_status
                 (if decide (Debate.result_status d = STATUS_POSTPONED)
                  then STATUS_POSTPONED else STATUS_NONE) d) db,
            RedirectRound "results" (Debate.round d)).
Proof.
  intros Hd. unfold toggle_postponed_twice.
  rewrite (toggle_postponed_found db debate_id d Hd). simpl.
  erewrite toggle_postponed_found by (simpl; apply lookup_insert_eq).
  rewrite save_debate_twice. by destruct d as [? ? ? ? [] ?].
Qed.

(** C2 (as stated, refuted). Debate 1 has a confirmed submission, and the
    toggle neither fails nor leaves the status alone: it postpones the
    debate. *)
Lemma toggle_postponed_guard_counterexample :
  0 < confirmed_count confirmed_db 1 /\
  Debate.result_status <$> (debates confirmed_db !! 1) = Some STATUS_CONFIRMED /\
  (forall e, toggle_postponed confirmed_db 1 <> Raise e) /\
  exists db',
    toggle_postponed confirmed_db 1 = Return (db', RedirectRound "results" 1) /\
    Debate.result_status <$> (debates db' !! 1) = Some STATUS_POSTPONED.
Proof.
  split; [by vm_compute|]. split; [by vm_compute|].
  split; [intros e; by vm_compute|].
  eexists. split; [by vm_compute|]. by vm_compute.
Qed.

(** C2 (amended). The toggle is unconditional: for every debate, whether or
    not it has a confirmed submission, [toggle_postponed] returns the
    redirect, stores [STATUS_NONE] if the status was [STATUS_POSTPONED] and
    [STATUS_POSTPONED] otherwise, and leaves the other fields of the debate,
    the other debates and the other tables as they were. *)
Theorem toggle_postponed_unconditional (db : DB) (debate_id : Z) (d : Debate.t) :
  debates db !! debate_id = Some d ->
  exists db',
    toggle_postponed db debate_id = Return (db', RedirectRound "results" (Debate.round d)) /\
    debates db'
    = <[debate_id :=
          Debate.mk (Debate.round d) (Debate.venue d) (Debate.aff_team d)
            (Debate.neg_team d)
            (if decide (Debate.result_status d = STATUS_POSTPONED)
             then STATUS_NONE else STATUS_POSTPONED)
            (Debate.ballot_in d)]> (debates db) /\
    (forall k, k <> debate_id -> debates db' !! k = debates db !! k) /\
    venues db' = venues db /\
    debateadjudicators db' = debateadjudicators db /\
    rounds db' = rounds db /\
    ballotsubmissions db' = ballotsubmissions db /\
    actionlog db' = actionlog db /\
    messages db' = messages db.
Proof.
  intros Hd. eexists. split; [by apply toggle_postponed_found|]. simpl.
  split; [done|]. split; [intros k Hk; by rewrite lookup_insert_ne|]. done.
Qed.

Lemma toggle_postponed_unconditional_witness :
  exists db',
    toggle_postponed confirmed_db 1 = Return (db', RedirectRound "results" 1) /\
    debates db' !! 1
    = Some (Debate.mk 1 None (Team.mk "Aff") (Team.mk "Neg") STATUS_POSTPONED false) /\
    ballotsubmissions db' = ballotsubmissions confirmed_db.
Proof.
  destruct (toggle_postponed_unconditional confirmed_db 1
              (Debate.mk 1 None (Team.mk "Aff") (Team.mk "Neg") STATUS_CONFIRMED false))
    as (db' & Htoggle & Hdebates & _ & _ & _ & _ & Hballots & _);
    [vm_compute; reflexivity|].
  exists db'. split; [exact Htoggle|]. split; [|exact Hballots].
  rewrite Hdebates. apply lookup_insert_eq.
Defined.

(** C3 (as stated, refuted). Debate 1 has no confirmed submission and its
    status is draft; two toggles leave it with no result, not draft. *)
Lemma toggle_postponed_twice_counterexample :
  confirmed_count draft_db 1 = 0 /\
  Debate.result_status <$> (debates draft_db !! 1) = Some STATUS_DRAFT /\
  exists db',
    toggle_postponed_twice draft_db 1 = Return (db', RedirectRound "results" 1) /\
    Debate.result_status <$> (debates db' !! 1) = Some STATUS_NONE.
Proof.
  split; [by vm_compute|]. split; [by vm_compute|].
  eexists. split; by vm_compute.
Qed.

(** C3 (amended). For every debate whose status is [STATUS_NONE] or
    [STATUS_POSTPONED], two toggles in a row succeed and give back the
    database they started from, so the status is the original one; the
    first toggle flips [STATUS_NONE] to [STATUS_POSTPONED] and back. *)
Theorem toggle_postponed_round_trip (db : DB) (debate_id : Z) (d : Debate.t) :
  debates db !! debate_id = Some d ->
  Debate.result_status d = STATUS_NONE \/ Debate.result_status d = STATUS_POSTPONED ->
  toggle_postponed_twice db debate_id
  = Return (db, RedirectRound "results" (Debate.round d)) /\
  exists db1 response,
    toggle_postponed db debate_id = Return (db1, response) /\
    Debate.result_status <$> (debates db1 !! debate_id)
    = Some (if decide (Debate.result_status d = STATUS_NONE)
            then STATUS_POSTPONED else STATUS_NONE).
Proof.
  intros Hd Hstatus. split.
  - rewrite (toggle_postponed_twice_status db debate_id d Hd). f_equal. f_equal.
    apply save_debate_same. rewrite Hd. f_equal.
    destruct d as [? ? ? ? st ?]; simpl in *. by destruct Hstatus as [-> | ->].
  - eexists _, _. split; [by apply toggle_postponed_found|]. simpl.
    rewrite lookup_insert_eq. simpl. by destruct Hstatus as [-> | ->].
Qed.

Lemma toggle_postponed_round_trip_witness :
  toggle_postponed_twice checkin_db 5 = Return (checkin_db, RedirectRound "results" 1).
Proof.
  apply (toggle_postponed_round_trip checkin_db 5
           (Debate.mk 1 (Some 1) (Team.mk "Aff") (Team.mk "Neg") STATUS_NONE false)).
  - vm_compute. reflexivity.
  - left. reflexivity.
Defined.

(** ** Ballots status timeline *)

#[local] Instance by_timestamp_transitive : Transitive by_timestamp.
Proof. intros x y z. unfold by_timestamp. lia. Qed.

#[local] Instance by_timestamp_total : Total by_timestamp.
Proof. intros x y. unfold by_timestamp. lia. Qed.






Lemma ballots_stats_cons (db : DB) (round now : Z) first rest :
  round_ballots db round = first :: rest ->
  ballots_stats db round now
  = (fun i =>
       ballots_stat db now (first :: rest)
         (objects_count (in_this_round round) (debates db))
         (time_period
            (minutes_ago now (BallotSubmission.timestamp first))
            ((minutes_ago now
                (BallotSubmission.timestamp (List.last (first :: rest) first))
              - minutes_ago now (BallotSubmission.timestamp first))
             / inject_Z intervals)%Q i))
      <$> seqZ 0 (intervals + 1).
Proof. intros Hl. unfold ballots_stats. by rewrite Hl. Qed.




(** *** In double precision *)

















(** *** On exact rationals *)


Lemma minutes_ago_elapsed (now time : Z) :
  minutes_ago now time = minutes_ago (now - time) 0.
Proof. unfold minutes_ago, datetime_sub. by rewrite Z.sub_0_r. Qed.

(** C6 (as stated, refuted). In the scenario the earliest checkpoint, 30
    minutes ago, does not report three confirmed ballots and seven debates
    without one. *)
Lemma histogram_scenario_counterexample :
  objects_count (in_this_round 1) (debates histogram_db) = 10 /\
  BallotSubmission.timestamp <$> round_ballots histogram_db 1
  = [histogram_now - 30 * minute; histogram_now - 20 * minute;
     histogram_now - 10 * minute] /\
  BallotSubmission.confirmed <$> round_ballots histogram_db 1 = [true; true; true] /\
  ~ (exists s,
       head (ballots_stats histogram_db 1 histogram_now) = Some s /\
       stat_0 s = 30 /\ stat_3 s = 3 /\ stat_1 s = 7).
Proof.
  split; [by vm_compute|]. split; [by vm_compute|]. split; [by vm_compute|].
  intros (s & Hs & _ & H3 & _). vm_compute in Hs. by simplify_eq.
Qed.

(** C6 (amended). In a round with 10 debates and three ballots entered 30,
    20 and 10 minutes ago for confirmed debates, the earliest checkpoint
    (30 minutes ago) reports one confirmed ballot and nine debates without
    one, and the latest checkpoint (10 minutes ago) reports three confirmed
    ballots and seven debates without one. *)
Theorem histogram_scenario (db : DB) (round now : Z) (b1 b2 b3 : BallotSubmission.t) :
  round_ballots db round = [b1; b2; b3] ->
  BallotSubmission.timestamp b1 = now - 30 * minute ->
  BallotSubmission.timestamp b2 = now - 20 * minute ->
  BallotSubmission.timestamp b3 = now - 10 * minute ->
  (forall b, b ∈ [b1; b2; b3] ->
     Debate.result_status <$> (debates db !! BallotSubmission.debate b)
     = Some STATUS_CONFIRMED) ->
  objects_count (in_this_round round) (debates db) = 10 ->
  head (ballots_stats db round now) = Some (mk_stat 30 9 0 1) /\
  last (ballots_stats db round now) = Some (mk_stat 10 7 0 3).
Proof.
  intros Hl Ht1 Ht2 Ht3 Hst Hn.
  rewrite (ballots_stats_cons db round now b1 [b2; b3] Hl), Hn.
  assert (forall b th st, b ∈ [b1; b2; b3] ->
            count_ballot db now th st b
            = if Qle_bool th (minutes_ago now (BallotSubmission.timestamp b))
              then mk_stat (stat_0 st) (stat_1 st - 1) (stat_2 st) (stat_3 st + 1)
              else st) as Hcount.
  { intros b th st Hb. unfold count_ballot. by rewrite (Hst b Hb). }
  assert (forall th,
            ballots_stat db now [b1; b2; b3] 10 th
            = foldl (fun st m =>
                       if Qle_bool th (minutes_ago (m * minute) 0)
                       then mk_stat (stat_0 st) (stat_1 st - 1) (stat_2 st)
                              (stat_3 st + 1)
                       else st) (mk_stat (int th) 10 0 0) [30; 20; 10]) as Hstat.
  { intros th. unfold ballots_stat. simpl.
    rewrite !Hcount by set_solver. rewrite Ht1, Ht2, Ht3.
    rewrite !(minutes_ago_elapsed now).
    replace (now - (now - 30 * minute)) with (30 * minute) by lia.
    replace (now - (now - 20 * minute)) with (20 * minute) by lia.
    replace (now - (now - 10 * minute)) with (10 * minute) by lia.
    reflexivity. }
  simpl List.last. rewrite Ht1, Ht3, !(minutes_ago_elapsed now).
  replace (now - (now - 30 * minute)) with (30 * minute) by lia.
  replace (now - (now - 10 * minute)) with (10 * minute) by lia.
  assert (forall f : Z -> stat, head (f <$> seqZ 0 (intervals + 1)) = Some (f 0))
    as Hhead by done.
  assert (forall f : Z -> stat, last (f <$> seqZ 0 (intervals + 1)) = Some (f 20))
    as Hlast by done.
  rewrite Hhead, Hlast, !Hstat. split; by vm_compute.
Qed.

Lemma histogram_scenario_witness :
  head (ballots_stats histogram_db 1 histogram_now) = Some (mk_stat 30 9 0 1) /\
  last (ballots_stats histogram_db 1 histogram_now) = Some (mk_stat 10 7 0 3).
Proof.
  apply (histogram_scenario histogram_db 1 histogram_now
           (BallotSubmission.mk 1 1 SUBMITTER_TABROOM (Some 7) true false
              (histogram_now - 30 * minute) (Some 8) (Some histogram_now) "10.0.0.1" 0)
           (BallotSubmission.mk 2 1 SUBMITTER_TABROOM (Some 7) true false
              (histogram_now - 20 * minute) (Some 8) (Some histogram_now) "10.0.0.1" 0)
           (BallotSubmission.mk 3 1 SUBMITTER_TABROOM (Some 7) true false
              (histogram_now - 10 * minute) (Some 8) (Some histogram_now) "10.0.0.1" 0)).
  - vm_compute. reflexivity.
  - reflexivity.
  - reflexivity.
  - reflexivity.
  - intros b Hb. repeat (apply elem_of_cons in Hb as [->|Hb]; [vm_compute; reflexivity|]).
    by apply elem_of_nil in Hb.
  - vm_compute. reflexivity.
Defined.

(** ** The confirmation protocol *)

Lemma size_le_1_unique {A} (m : gmap Z A) :
  (size m <= 1)%nat <-> forall k1 k2 x1 x2, m !! k1 = Some x1 -> m !! k2 = Some x2 -> k1 = k2.
Proof.
  split.
  - intros Hsize k1 k2 x1 x2 H1 H2. destruct (decide (k1 = k2)) as [|Hne]; [done|].
    exfalso. rewrite <- (insert_delete_id m k1 x1 H1) in Hsize.
    rewrite map_size_insert_None in Hsize by apply lookup_delete_eq.
    assert (size (delete k1 m) <> 0)%nat; [|lia].
    apply map_size_non_empty_iff. intros Hempty.
    assert (delete k1 m !! k2 = Some x2) as Hin by (by rewrite lookup_delete_ne).
    by rewrite Hempty, lookup_empty in Hin.
  - intros Huniq. rewrite <- length_map_to_list.
    pose proof (NoDup_fst_map_to_list m) as Hnd.
    destruct (map_to_list m) as [|[k1 x1] [|[k2 x2] l]] eqn:Hl; simpl; [lia..|].
    exfalso.
    assert (k1 = k2) as ->.
    { apply (Huniq k1 k2 x1 x2); apply elem_of_map_to_list; rewrite Hl; set_solver. }
    simpl in Hnd. apply NoDup_cons in Hnd as [Hnot _]. apply Hnot. left.
Qed.

Lemma single_winner_count (db : DB) :
  single_winner (ballotsubmissions db) <-> forall debate, confirmed_count db debate <= 1.
Proof.
  unfold confirmed_count, objects_count. split.
  - intros Hsw debate.
    assert (size (objects_filter (confirmed_of debate) (ballotsubmissions db)) <= 1)%nat;
      [|lia].
    apply size_le_1_unique. intros k1 k2 b1 b2.
    rewrite !objects_filter_lookup. unfold confirmed_of.
    intros [H1 (Hd1 & Hc1 & Hx1)] [H2 (Hd2 & Hc2 & Hx2)].
    apply (Hsw k1 k2 b1 b2); congruence.
  - intros Hcount k1 k2 b1 b2 H1 H2 Hd Hc1 Hx1 Hc2 Hx2.
    specialize (Hcount (BallotSubmission.debate b1)).
    assert (size (objects_filter (confirmed_of (BallotSubmission.debate b1))
                    (ballotsubmissions db)) <= 1)%nat as Hsize by lia.
    apply (proj1 (size_le_1_unique _) Hsize k1 k2 b1 b2);
      apply objects_filter_lookup; unfold confirmed_of; by repeat split.
Qed.

(** Writing any submission under the lock keeps a single winner. *)
Lemma save_ballotsub_single_winner (db : DB) (pk : Z) (b : BallotSubmission.t) :
  single_winner (ballotsubmissions db) ->
  single_winner (ballotsubmissions (save_ballotsub db pk b)).
Proof.
  intros Hsw. unfold save_ballotsub. simpl.
  intros k1 k2 b1 b2 H1 H2 Hd Hc1 Hx1 Hc2 Hx2.
  destruct (decide (k1 = k2)) as [|Hne]; [done|]. exfalso.
  destruct (BallotSubmission.confirmed b) eqn:Hc.
  - (* every other submission of the debate of [b] is unconfirmed *)
    assert (forall k b', k <> pk ->
              (unconfirm_in (BallotSubmission.debate b) <$> ballotsubmissions db) !! k
              = Some b' ->
              BallotSubmission.confirmed b' = true ->
              BallotSubmission.debate b' <> BallotSubmission.debate b /\
              ballotsubmissions db !! k = Some b') as Hother.
    { intros k b' _ Hk Hcb'. rewrite lookup_fmap in Hk.
      destruct (ballotsubmissions db !! k) as [b0|] eqn:Hb0; [|done].
      simpl in Hk. injection Hk as <-. unfold unconfirm_in in *.
      case_decide; [done|]. done. }
    destruct (decide (k1 = pk)) as [->|Hk1], (decide (k2 = pk)) as [->|Hk2]; [done|..].
    + rewrite lookup_insert_eq in H1. rewrite lookup_insert_ne in H2 by done.
      injection H1 as <-. destruct (Hother k2 b2 Hk2 H2 Hc2) as [Hdiff _]. congruence.
    + rewrite lookup_insert_eq in H2. rewrite lookup_insert_ne in H1 by done.
      injection H2 as <-. destruct (Hother k1 b1 Hk1 H1 Hc1) as [Hdiff _]. congruence.
    + rewrite lookup_insert_ne in H1, H2 by done.
      destruct (Hother k1 b1 Hk1 H1 Hc1) as [_ H1'].
      destruct (Hother k2 b2 Hk2 H2 Hc2) as [_ H2'].
      apply Hne. by apply (Hsw k1 k2 b1 b2).
  - destruct (decide (k1 = pk)) as [->|Hk1].
    { rewrite lookup_insert_eq in H1. injection H1 as <-. congruence. }
    destruct (decide (k2 = pk)) as [->|Hk2].
    { rewrite lookup_insert_eq in H2. injection H2 as <-. congruence. }
    rewrite lookup_insert_ne in H1, H2 by done.
    apply Hne. by apply (Hsw k1 k2 b1 b2).
Qed.

Lemma set_status_ballotsubmissions db debate s :
  ballotsubmissions (set_status debate s db) = ballotsubmissions db.
Proof. done. Qed.

Lemma log_ballotsubmissions db e : ballotsubmissions (log e db) = ballotsubmissions db.
Proof. done. Qed.

Lemma add_message_ballotsubmissions db m :
  ballotsubmissions (add_message m db) = ballotsubmissions db.
Proof. done. Qed.

Lemma insert_submission_single_winner db b content :
  single_winner (ballotsubmissions db) ->
  single_winner (ballotsubmissions (insert_submission db b content).1.1).
Proof.
  intros Hsw. unfold insert_submission. simpl.
  match goal with |- context [save_ballotsub db ?pk ?b'] =>
    pose proof (save_ballotsub_single_winner db pk b' Hsw) as Hsaved
  end.
  repeat case_match; exact Hsaved.
Qed.

Lemma perform_single_winner (db : DB) (op : Operation) :
  single_winner (ballotsubmissions db) ->
  single_winner (ballotsubmissions (perform db op)).
Proof.
  intros Hsw. destruct op as [debate ty who origin content now
                             |submission who allow now|submission|submission content];
    simpl.
  - unfold createSubmission.
    destruct (debates db !! debate); [|done].
    destruct (negb (has_chair db debate)); [done|].
    match goal with |- context [insert_submission db ?b ?c] =>
      pose proof (insert_submission_single_winner db b c Hsw) as Hins;
      destruct (insert_submission db b c) as [[db' pk] b']
    end.
    exact Hins.
  - unfold confirmSubmission.
    destruct (ballotsubmissions db !! submission) as [b|]; [|done].
    destruct (BallotSubmission.discarded b); [done|].
    destruct (_ && _); [done|].
    by apply save_ballotsub_single_winner.
  - unfold discardSubmission.
    destruct (ballotsubmissions db !! submission) as [b|]; [|done].
    destruct (BallotSubmission.discarded b); [done|].
    by apply save_ballotsub_single_winner.
  - unfold editSubmission.
    destruct (ballotsubmissions db !! submission) as [b|]; [|done].
    by apply save_ballotsub_single_winner.
Qed.

Lemma run_single_winner (db : DB) (ops : list Operation) :
  single_winner (ballotsubmissions db) ->
  single_winner (ballotsubmissions (run db ops)).
Proof.
  unfold run. revert db. induction ops as [|op ops IH]; intros db Hsw; [done|].
  simpl. by apply IH, perform_single_winner.
Qed.

(** C1. From a database in which no debate has more than one confirmed,
    non-discarded submission, any sequence of create, confirm, discard and
    edit operations leaves every debate with no or one such submission. *)
Theorem at_most_one_confirmed (db : DB) (ops : list Operation) (debate : Z) :
  (forall d, confirmed_count db d <= 1) ->
  confirmed_count (run db ops) debate = 0 \/ confirmed_count (run db ops) debate = 1.
Proof.
  intros Hdb%single_winner_count.
  pose proof (proj1 (single_winner_count _) (run_single_winner db ops Hdb) debate).
  unfold confirmed_count, objects_count in *. lia.
Qed.

Lemma at_most_one_confirmed_witness :
  confirmed_count (run chaired_db protocol_ops) 1 = 0 \/
  confirmed_count (run chaired_db protocol_ops) 1 = 1.
Proof.
  apply at_most_one_confirmed. intros d. vm_compute. discriminate.
Defined.

(** ** Entering and confirming ballots *)

Section view_facts.
Context {QueryDict : Type} `{!BallotSetForm QueryDict}.

(** Without a chair the staff view refuses to enter a ballot. *)
Lemma new_ballotset_no_chair (db : DB) (request : HttpRequest QueryDict)
    (t : Tournament.t) (now debate_id : Z) (d : Debate.t) :
  debates db !! debate_id = Some d ->
  has_chair db debate_id = false ->
  new_ballotset db request t now debate_id
  = Return (add_message
              (mk_message ERROR
                 ("Whoops! The debate %s doesn't have a chair, " +:+
                  "so you can't enter results for it.") debate_id) db,
            RedirectRound "results" (Debate.round d)).
Proof. intros Hd Hchair. unfold new_ballotset. by rewrite Hd, Hchair. Qed.

(** The public view saves a valid ballot for the debate the adjudicator is
    on; whether the debate has a chair plays no part. *)
Lemma public_new_ballotset_saves (db : DB) (request : HttpRequest QueryDict)
    (t : Tournament.t) (now adjudicator : Z) round k da db1 pk b1 :
  rounds db !! Tournament.current_round t = Some round ->
  Round.draw_status round = STATUS_RELEASED ->
  Round.motions_released round = true ->
  objects_get (adjudicating_in db adjudicator (Tournament.current_round t))
    (debateadjudicators db) = Got k da ->
  method request = POST ->
  is_valid db None
    (BallotSubmission.mk (DebateAdjudicator.debate da) 0 SUBMITTER_PUBLIC None false
       false now None None (ip_address request) 0) (POST_data request) true = true ->
  form_save db None
    (BallotSubmission.mk (DebateAdjudicator.debate da) 0 SUBMITTER_PUBLIC None false
       false now None None (ip_address request) 0) (POST_data request) = (db1, pk, b1) ->
  public_new_ballotset db request t now adjudicator
  = Return (log (ActionLogEntry.mk ACTION_TYPE_BALLOT_SUBMIT None None (Some pk)
                   (Some (ip_address request)) (Tournament.id t)) db1,
            Render "public_success.html" [("success_kind", VStr "ballot")]).
Proof.
  intros Hround Hdraw Hmotions Hda Hpost Hvalid Hsave. unfold public_new_ballotset.
  rewrite Hround, Hdraw, Hmotions, Hda, Hpost, Hvalid, Hsave.
  by rewrite bool_decide_false by (by intros []).
Qed.

Lemma edit_ballotset_renders (db : DB) (request : HttpRequest QueryDict)
    (t : Tournament.t) (now ballotsub_id : Z) (b : BallotSubmission.t) (d : Debate.t) :
  ballotsubmissions db !! ballotsub_id = Some b ->
  debates db !! BallotSubmission.debate b = Some d ->
  method request = GET \/
  is_valid db (Some ballotsub_id) b (POST_data request) false = false ->
  exists response,
    edit_ballotset db request t now ballotsub_id = Return (db, response) /\
    context_lookup "disable_confirm" response
    = Some (VBool (bool_decide (Some (User.id (user request))
                                = BallotSubmission.submitter b)
                   && negb (Tournament.disable_ballot_confirms t)
                   && negb (User.is_superuser (user request)))).
Proof.
  intros Hb Hd Hrender. unfold edit_ballotset. rewrite Hb, Hd.
  destruct (method request) eqn:Hm.
  - eexists. split; [reflexivity|]. reflexivity.
  - destruct Hrender as [|Hinvalid]; [done|]. rewrite Hinvalid.
    eexists. split; [reflexivity|]. reflexivity.
Qed.

Lemma edit_ballotset_confirms (db : DB) (request : HttpRequest QueryDict)
    (t : Tournament.t) (now ballotsub_id : Z) (b : BallotSubmission.t) (d : Debate.t)
    db1 pk b1 :
  ballotsubmissions db !! ballotsub_id = Some b ->
  debates db !! BallotSubmission.debate b = Some d ->
  method request = POST ->
  is_valid db (Some ballotsub_id) b (POST_data request) false = true ->
  form_save db (Some ballotsub_id) b (POST_data request) = (db1, pk, b1) ->
  BallotSubmission.discarded b1 = false ->
  BallotSubmission.confirmed b1 = true ->
  edit_ballotset db request t now ballotsub_id
  = Return (log (ActionLogEntry.mk ACTION_TYPE_BALLOT_CONFIRM
                   (Some (User.id (user request))) None (Some pk)
                   (Some (ip_address request)) (Tournament.id t))
              (add_message
                 (mk_message SUCCESS "Ballot set for %s confirmed."
                    (BallotSubmission.debate b))
                 (ballotsub_save db1 pk
                    (BallotSubmission.set_confirmer (Some (User.id (user request)))
                       (Some now) b1))),
            RedirectRound "results" (Debate.round d)).
Proof.
  intros Hb Hd Hpost Hvalid Hsave Hdiscarded Hconfirmed. unfold edit_ballotset.
  by rewrite Hb, Hd, Hpost, Hvalid, Hsave, Hdiscarded, Hconfirmed.
Qed.

(** C8 (amended). The view never refuses a confirmation because the
    confirmer is the submitter. When it shows the form (a GET, or a POST
    the form rejects) it writes nothing and sets [disable_confirm] exactly
    when the user is the submitter, the [disable_ballot_confirms] preference
    is off and the user is not a superuser. When a valid POST leaves the
    submission confirmed and not discarded, the view records the requesting
    user as confirmer, whoever that user is, logs the confirmation and
    redirects. *)
Theorem self_confirmation_only_disables_form (db : DB) (request : HttpRequest QueryDict)
    (t : Tournament.t) (now ballotsub_id : Z) (b : BallotSubmission.t) (d : Debate.t) :
  ballotsubmissions db !! ballotsub_id = Some b ->
  debates db !! BallotSubmission.debate b = Some d ->
  (method request = GET \/
   is_valid db (Some ballotsub_id) b (POST_data request) false = false ->
   exists response,
     edit_ballotset db request t now ballotsub_id = Return (db, response) /\
     context_lookup "disable_confirm" response
     = Some (VBool (bool_decide (Some (User.id (user request))
                                 = BallotSubmission.submitter b)
                    && negb (Tournament.disable_ballot_confirms t)
                    && negb (User.is_superuser (user request))))) /\
  (forall db1 pk b1,
     method request = POST ->
     is_valid db (Some ballotsub_id) b (POST_data request) false = true ->
     form_save db (Some ballotsub_id) b (POST_data request) = (db1, pk, b1) ->
     BallotSubmission.discarded b1 = false ->
     BallotSubmission.confirmed b1 = true ->
     edit_ballotset db request t now ballotsub_id
     = Return (log (ActionLogEntry.mk ACTION_TYPE_BALLOT_CONFIRM
                      (Some (User.id (user request))) None (Some pk)
                      (Some (ip_address request)) (Tournament.id t))
                 (add_message
                    (mk_message SUCCESS "Ballot set for %s confirmed."
                       (BallotSubmission.debate b))
                    (ballotsub_save db1 pk
                       (BallotSubmission.set_confirmer (Some (User.id (user request)))
                          (Some now) b1))),
               RedirectRound "results" (Debate.round d))).
Proof.
  intros Hb Hd. split.
  - by apply (edit_ballotset_renders db request t now ballotsub_id b d).
  - intros db1 pk b1. by apply edit_ballotset_confirms.
Qed.

End view_facts.

Lemma self_confirmation_only_disables_form_witness :
  (exists response,
     edit_ballotset draft_db staff_get tournament_1 50 1 = Return (draft_db, response) /\
     context_lookup "disable_confirm" response = Some (VBool true)) /\
  exists db',
    edit_ballotset draft_db (staff_post true false) tournament_1 50 1
    = Return (db', RedirectRound "results" 1) /\
    BallotSubmission.confirmer <$> (ballotsubmissions db' !! 1) = Some (Some 7).
Proof.
  destruct (self_confirmation_only_disables_form draft_db staff_get tournament_1 50 1
              (BallotSubmission.mk 1 1 SUBMITTER_TABROOM (Some 7) false false 0 None
                 None "10.0.0.1" 0)
              (Debate.mk 1 None (Team.mk "Aff") (Team.mk "Neg") STATUS_DRAFT false))
    as [Hget _]; [vm_compute; reflexivity..|].
  destruct (self_confirmation_only_disables_form draft_db (staff_post true false)
              tournament_1 50 1
              (BallotSubmission.mk 1 1 SUBMITTER_TABROOM (Some 7) false false 0 None
                 None "10.0.0.1" 0)
              (Debate.mk 1 None (Team.mk "Aff") (Team.mk "Neg") STATUS_DRAFT false))
    as [_ Hpost]; [vm_compute; reflexivity..|].
  split.
  - apply Hget. left. reflexivity.
  - eexists. split.
    + apply Hpost; reflexivity.
    + vm_compute. reflexivity.
Defined.

(** C8 (as stated, refuted). User 7 entered ballot 1, is not a superuser, and
    the tournament does not disable ballot confirmation checks; the same
    user posts the confirmation and it is accepted: the ballot is stored
    confirmed with user 7 as its confirmer. *)
Lemma self_confirmation_counterexample :
  BallotSubmission.submitter <$> (ballotsubmissions draft_db !! 1) = Some (Some 7) /\
  User.id (user (staff_post true false)) = 7 /\
  User.is_superuser (user (staff_post true false)) = false /\
  Tournament.disable_ballot_confirms tournament_1 = false /\
  confirmed_count draft_db 1 = 0 /\
  exists db',
    edit_ballotset draft_db (staff_post true false) tournament_1 50 1
    = Return (db', RedirectRound "results" 1) /\
    confirmed_count db' 1 = 1 /\
    BallotSubmission.confirmed <$> (ballotsubmissions db' !! 1) = Some true /\
    BallotSubmission.confirmer <$> (ballotsubmissions db' !! 1) = Some (Some 7).
Proof.
  repeat (split; [by vm_compute|]).
  eexists. split; [by vm_compute|]. repeat split; by vm_compute.
Qed.

(** C7. The staff view checks for a chair and the public view does not: in
    a round released with its motions, debate 1 has adjudicator 9 on its
    panel and no chair. The staff view refuses to enter a ballot for it and
    stores nothing but the error message; the public view, for adjudicator
    9, accepts a valid ballot and stores it as version 1. *)
Theorem chair_check_staff_only :
  has_chair chairless_db 1 = false /\
  new_ballotset chairless_db (staff_post false false) tournament_1 50 1
  = Return (add_message
              (mk_message ERROR
                 ("Whoops! The debate %s doesn't have a chair, " +:+
                  "so you can't enter results for it.") 1) chairless_db,
            RedirectRound "results" 1) /\
  exists db',
    public_new_ballotset chairless_db public_post tournament_1 50 9
    = Return (db', Render "public_success.html" [("success_kind", VStr "ballot")]) /\
    ballotsubmissions db'
    = {[1 := BallotSubmission.mk 1 1 SUBMITTER_PUBLIC None false false 50 None None
               "10.0.0.2" 5]}.
Proof.
  split; [by vm_compute|]. split.
  - apply (new_ballotset_no_chair chairless_db (staff_post false false) tournament_1 50 1
             (Debate.mk 1 None (Team.mk "Aff") (Team.mk "Neg") STATUS_NONE false));
      by vm_compute.
  - eexists. split.
    + eapply (public_new_ballotset_saves chairless_db public_post tournament_1 50 9
                (Round.mk STATUS_RELEASED true) 1 (DebateAdjudicator.mk 1 9 TYPE_PANEL));
        [by vm_compute..|reflexivity].
    + by vm_compute.
Qed.

Lemma form_save_single_winner (db : DB) (pk : option Z) (b : BallotSubmission.t)
    (post : BallotPost) :
  single_winner (ballotsubmissions db) ->
  single_winner (ballotsubmissions (form_save db pk b post).1.1).
Proof.
  intros Hsw. destruct pk as [k|].
  - by apply save_ballotsub_single_winner.
  - by apply insert_submission_single_winner.
Qed.

(** With the form modelled above, the three views that write ballot
    submissions keep a single winner per debate. *)
Lemma views_single_winner (db db' : DB) (request : HttpRequest BallotPost)
    (t : Tournament.t) (now id : Z) (response : HttpResponse) :
  single_winner (ballotsubmissions db) ->
  edit_ballotset db request t now id = Return (db', response) \/
  new_ballotset db request t now id = Return (db', response) \/
  public_new_ballotset db request t now id = Return (db', response) ->
  single_winner (ballotsubmissions db').
Proof.
  intros Hsw Hview.
  assert (forall pk b post db1 pk1 b1,
            form_save db pk b post = (db1, pk1, b1) ->
            single_winner (ballotsubmissions db1)) as Hform.
  { intros pk b post db1 pk1 b1 Hsave.
    pose proof (form_save_single_winner db pk b post Hsw) as H. by rewrite Hsave in H. }
  destruct Hview as [Hview|[Hview|Hview]].
  - unfold edit_ballotset in Hview.
    repeat case_match; simplify_eq; try done;
      rewrite log_ballotsubmissions, add_message_ballotsubmissions;
      try apply save_ballotsub_single_winner; eauto.
  - unfold new_ballotset in Hview.
    repeat case_match; simplify_eq; try done.
    rewrite add_message_ballotsubmissions, log_ballotsubmissions. eauto.
  - unfold public_new_ballotset in Hview.
    repeat case_match; simplify_eq; try done.
    rewrite log_ballotsubmissions. eauto.
Qed.

(** * Further properties *)

(** ** Physical ballot check-in *)

Section count_facts.
Context {A : Type} (P : A -> Prop) `{!forall x, Decision (P x)}.

Lemma objects_get_Multiple (table : gmap Z A) :
  objects_get P table = MultipleObjectsReturned <->
  (2 <= size (objects_filter P table))%nat.
Proof.
  unfold objects_get. rewrite <- length_map_to_list.
  destruct (map_to_list (objects_filter P table)) as [|[k x] [|? ?]]; simpl;
    split; intros; try done; lia.
Qed.

(** Saving a row that no longer matches takes one off the count. *)
Lemma objects_count_save_out (table : gmap Z A) k x y :
  table !! k = Some x -> P x -> ~ P y ->
  objects_count P (<[k := y]> table) = objects_count P table - 1.
Proof.
  intros Hk HPx HPy. unfold objects_count, objects_filter.
  rewrite map_filter_insert_False by done. rewrite map_filter_delete.
  rewrite map_size_delete_Some
    by (exists x; by apply (objects_filter_lookup P table k x)).
  assert (size (filter (fun kv : Z * A => P kv.2) table) <> 0)%nat; [|lia].
  apply map_size_non_empty_iff. intros Hempty.
  assert (filter (fun kv : Z * A => P kv.2) table !! k = Some x) as Hin
    by (by apply (objects_filter_lookup P table k x)).
  by rewrite Hempty, lookup_empty in Hin.
Qed.

(** Saving a row that matches neither before nor after leaves the query
    as it was. *)
Lemma objects_filter_save_other (table : gmap Z A) k x y :
  table !! k = Some x -> ~ P x -> ~ P y ->
  objects_filter P (<[k := y]> table) = objects_filter P table.
Proof.
  intros Hk HPx HPy. unfold objects_filter.
  apply map_filter_insert_not'; [done|]. intros x' Hk'. by simplify_eq.
Qed.
End count_facts.

(** X1. A successful check-in takes exactly one ballot off the number left
    for the round, the number it reports is the number left after it, and
    the number left in every other round stays as it was. *)
Theorem checkin_counts_down (db : DB) (user round tournament : Z) (v : string)
    dk d venue :
  get_debate_from_ballot_checkin_request db round v = Return (dk, d, venue) ->
  exists db' body,
    post_ballot_checkin db user round tournament v = Return (db', JsonResponse body) /\
    ballot_checkin_number_left db' round = ballot_checkin_number_left db round - 1 /\
    0 <= ballot_checkin_number_left db' round /\
    json_get "ballots_left" body = Some (JInt (ballot_checkin_number_left db round - 1)) /\
    json_get "success" body = Some (JBool true) /\
    forall round',
      round' <> round ->
      ballot_checkin_number_left db' round' = ballot_checkin_number_left db round'.
Proof.
  intros Hget. pose proof Hget as (vk & _ & Hd & Hin)%checkin_Return_inv.
  apply objects_get_found in Hd as [Hdk [Hround _]].
  assert (ballot_checkin_number_left
            (log (ActionLogEntry.mk ACTION_TYPE_BALLOT_CHECKIN (Some user) (Some dk)
                    None None tournament)
               (save_debate dk (Debate.set_ballot_in true d) db)) round
          = ballot_checkin_number_left db round - 1) as Hleft.
  { unfold ballot_checkin_number_left. simpl.
    apply (objects_count_save_out (not_checked_in round) (debates db) dk d); [done|..].
    - by split.
    - by intros [_ ?]. }
  unfold post_ballot_checkin. rewrite Hget. eexists _, _. split; [reflexivity|].
  rewrite Hleft. split; [done|]. split; [|split; [done|split; [done|]]].
  - rewrite <- Hleft. unfold ballot_checkin_number_left, objects_count. lia.
  - intros round' Hround'. unfold ballot_checkin_number_left, objects_count. simpl.
    rewrite (objects_filter_save_other (not_checked_in round') (debates db) dk d);
      [done..| |]; intros [? _]; simpl in *; congruence.
Qed.

Lemma checkin_counts_down_witness :
  exists db' body,
    post_ballot_checkin checkin_db 7 1 1 "room 1" = Return (db', JsonResponse body) /\
    ballot_checkin_number_left db' 1 = 0 /\
    json_get "ballots_left" body = Some (JInt 0).
Proof.
  destruct (checkin_counts_down checkin_db 7 1 1 "room 1" 5
              (Debate.mk 1 (Some 1) (Team.mk "Aff") (Team.mk "Neg") STATUS_NONE false)
              (Venue.mk "Room 1"))
    as (db' & body & Hpost & Hleft & _ & Hbody & _ & _); [vm_compute; reflexivity|].
  exists db', body. split; [exact Hpost|]. split; [exact Hleft|exact Hbody].
Defined.

(** The exceptions that escape a check-in for a given venue name. *)
Lemma post_ballot_checkin_raises (db : DB) (user round tournament : Z) (v : string) :
  (forall e,
     post_ballot_checkin db user round tournament v = Raise e ->
     e = ModelMultipleObjectsReturned) /\
  (post_ballot_checkin db user round tournament v = Raise ModelMultipleObjectsReturned <->
   (2 <= size (objects_filter (venue_named v) (venues db)))%nat \/
   exists vk venue,
     objects_get (venue_named v) (venues db) = Got vk venue /\
     (2 <= size (objects_filter (debate_at round vk) (debates db)))%nat).
Proof.
  rewrite <- objects_get_Multiple.
  unfold post_ballot_checkin, get_debate_from_ballot_checkin_request.
  destruct (objects_get (venue_named v) (venues db)) as [vk venue| |] eqn:Hv.
  - pose proof (objects_get_Multiple (debate_at round vk) (debates db)) as Hm.
    destruct (objects_get (debate_at round vk) (debates db)) as [dk d| |] eqn:Hd.
    + destruct (Debate.ballot_in d); (split; [done|]); split; try done;
        intros [|(? & ? & ? & Hsize)]; try done; simplify_eq;
        apply Hm in Hsize; done.
    + split; [done|]. split; [done|].
      intros [|(? & ? & ? & Hsize)]; try done; simplify_eq. by apply Hm in Hsize.
    + split; [by intros ? [= <-]|]. split; [|done].
      intros _. right. exists vk, venue. split; [done|]. by apply Hm.
  - split; [done|]. split; [done|]. intros [|(? & ? & ? & _)]; done.
  - split; [by intros ? [= <-]|]. split; [|done]. intros _. by left.
Qed.

(** X2. [DebateBallotCheckinError] never escapes the check-in view. Two
    exceptions do: [TypeError], exactly when the request carries no [venue]
    field, and [MultipleObjectsReturned], exactly when the name it carries
    matches several venues or the venue found has several debates in the
    round. *)
Theorem checkin_escapes (db : DB) (user round tournament : Z)
    (POST : gmap string string) :
  (forall e,
     post_ballot_checkin_request db user round tournament POST = Raise e ->
     e = TypeError \/ e = ModelMultipleObjectsReturned) /\
  (post_ballot_checkin_request db user round tournament POST = Raise TypeError <->
   POST !! "venue" = None) /\
  (post_ballot_checkin_request db user round tournament POST
   = Raise ModelMultipleObjectsReturned <->
   exists v,
     POST !! "venue" = Some v /\
     ((2 <= size (objects_filter (venue_named v) (venues db)))%nat \/
      exists vk venue,
        objects_get (venue_named v) (venues db) = Got vk venue /\
        (2 <= size (objects_filter (debate_at round vk) (debates db)))%nat)).
Proof.
  unfold post_ballot_checkin_request.
  destruct (POST !! "venue") as [v|] eqn:Hv.
  - destruct (post_ballot_checkin_raises db user round tournament v) as [Honly Hiff].
    split; [intros e He; right; by apply Honly|]. split.
    + split; [|done]. intros He. by apply Honly in He.
    + rewrite Hiff. split; [intros H; by exists v|]. by intros (? & [= <-] & H).
  - split; [intros e [= <-]; by left|]. split; [done|].
    split; [done|]. by intros (? & ? & _).
Qed.

Lemma checkin_escapes_witness :
  post_ballot_checkin_request checkin_db 7 1 1 ∅ = Raise TypeError /\
  post_ballot_checkin_request twin_venues_db 7 1 1 {["venue" := "room 1"]}
  = Raise ModelMultipleObjectsReturned.
Proof.
  split.
  - apply (proj1 (proj2 (checkin_escapes checkin_db 7 1 1 ∅))). reflexivity.
  - apply (proj2 (proj2 (checkin_escapes twin_venues_db 7 1 1
                           {["venue" := "room 1"]}))).
    exists "room 1". split; [reflexivity|]. left. vm_compute. lia.
Defined.

(** The number of ballots left once a check-in has gone through. *)
Lemma checkin_number_left_after (db : DB) (user round tournament : Z) (v : string)
    dk d venue :
  get_debate_from_ballot_checkin_request db round v = Return (dk, d, venue) ->
  ballot_checkin_number_left
    (log (ActionLogEntry.mk ACTION_TYPE_BALLOT_CHECKIN (Some user) (Some dk)
            None None tournament)
       (save_debate dk (Debate.set_ballot_in true d) db)) round
  = ballot_checkin_number_left db round - 1.
Proof.
  intros (vk & _ & Hd & Hin)%checkin_Return_inv.
  apply objects_get_found in Hd as [Hdk [Hround _]].
  unfold ballot_checkin_number_left. simpl.
  apply (objects_count_save_out (not_checked_in round) (debates db) dk d); [done|..].
  - by split.
  - by intros [_ ?].
Qed.

Section checkin_details_facts.
Context (adjudicators : DB -> Z -> list (AdjudicatorType * string)).

(** X3. The details view and the check-in view treat a venue name alike:
    they stop on the same exceptions, a refusal is the same JSON body from
    both, and when the details view shows a debate it is the debate the
    request resolves to: the check-in succeeds, marks that debate, names the
    same venue and reports one ballot fewer left than the details view did.
    The details view names the two teams of that debate and lists and counts
    its panel without the trainees. *)
Theorem checkin_details_agree (db : DB) (user round tournament : Z) (v : string) :
  (forall e,
     ballot_checkin_get_details adjudicators db round v = Raise e <->
     post_ballot_checkin db user round tournament v = Raise e) /\
  (forall body,
     ballot_checkin_get_details adjudicators db round v = Return (JsonResponse body) ->
     json_get "exists" body = Some (JBool false) ->
     post_ballot_checkin db user round tournament v = Return (db, JsonResponse body)) /\
  (forall body,
     ballot_checkin_get_details adjudicators db round v = Return (JsonResponse body) ->
     json_get "exists" body = Some (JBool true) ->
     exists dk d venue db' body',
       get_debate_from_ballot_checkin_request db round v = Return (dk, d, venue) /\
       post_ballot_checkin db user round tournament v = Return (db', JsonResponse body') /\
       debates db' !! dk = Some (Debate.set_ballot_in true d) /\
       json_get "success" body' = Some (JBool true) /\
       json_get "venue" body = Some (JStr (Venue.name venue)) /\
       json_get "venue" body' = Some (JStr (Venue.name venue)) /\
       json_get "aff_team" body = Some (JStr (Team.short_name (Debate.aff_team d))) /\
       json_get "neg_team" body = Some (JStr (Team.short_name (Debate.neg_team d))) /\
       json_get "ballots_left" body
       = Some (JInt (ballot_checkin_number_left db round)) /\
       json_get "ballots_left" body'
       = Some (JInt (ballot_checkin_number_left db round - 1)) /\
       json_get "num_adjs" body
       = Some (JInt (Z.of_nat (length (filter not_trainee (adjudicators db dk))))) /\
       json_get "adjudicators" body
       = Some (JArr (JStr <$> (snd <$> filter not_trainee (adjudicators db dk))))).
Proof.
  destruct (get_debate_from_ballot_checkin_request db round v)
    as [[[dk d] venue]|e0] eqn:Hget.
  - pose proof (checkin_number_left_after db user round tournament v dk d venue Hget)
      as Hleft.
    unfold ballot_checkin_get_details, post_ballot_checkin. rewrite Hget.
    split; [done|]. split; [by intros body [= <-]|].
    intros body [= <-] _. eexists dk, d, venue, _, _.
    split; [done|]. split; [reflexivity|].
    split; [simpl; by rewrite lookup_insert_eq|].
    rewrite Hleft, length_fmap. by repeat split.
  - unfold ballot_checkin_get_details, post_ballot_checkin. rewrite Hget.
    destruct e0 as [e| | | | |]; (split; [intros e'; split; intros ?; by simplify_eq|]);
      (split; [first [by intros body [= <-]|done]|]); try done.
    intros body [= <-] Hexists. by cbv in Hexists.
Qed.
End checkin_details_facts.

Lemma checkin_details_agree_witness :
  exists db' body',
    post_ballot_checkin two_rooms_db 7 1 1 "room 2" = Return (db', JsonResponse body') /\
    Debate.ballot_in <$> debates db' !! 6 = Some true /\
    json_get "ballots_left" body' = Some (JInt 1).
Proof.
  destruct (checkin_details_agree
              (fun _ dk =>
                 if decide (dk = 6) then [(TYPE_CHAIR, "Ann"); (TYPE_TRAINEE, "Bob")]
                 else [(TYPE_CHAIR, "Cy")])
              two_rooms_db 7 1 1 "room 2") as (_ & _ & H).
  destruct (H (JObj [("exists", JBool true); ("venue", JStr "Room 2");
                     ("aff_team", JStr "Pro"); ("neg_team", JStr "Con");
                     ("num_adjs", JInt 1); ("adjudicators", JArr [JStr "Ann"]);
                     ("ballots_left", JInt 2)]))
    as (dk & d & venue & db' & body' & Hget & Hpost & Hdk & _ & _ & _ & _ & _ & _ &
        Hleft & _);
    [vm_compute; reflexivity..|].
  vm_compute in Hget. injection Hget as <- <- <-.
  exists db', body'. split; [exact Hpost|]. split; [by rewrite Hdk|exact Hleft].
Defined.

(** X4. Check-ins of two different debates are independent: checking one
    in leaves the request for the other resolving to the same debate, so the
    two can be done in either order, both succeed, and the debates end up
    the same. *)
Theorem checkins_commute (db : DB) (user r1 r2 tournament : Z) (v1 v2 : string)
    k1 d1 venue1 k2 d2 venue2 :
  get_debate_from_ballot_checkin_request db r1 v1 = Return (k1, d1, venue1) ->
  get_debate_from_ballot_checkin_request db r2 v2 = Return (k2, d2, venue2) ->
  k1 <> k2 ->
  exists db12 db21 response1 response2,
    (post_ballot_checkin db user r1 tournament v1
       ≫= fun r => post_ballot_checkin r.1 user r2 tournament v2)
    = Return (db12, response2) /\
    (post_ballot_checkin db user r2 tournament v2
       ≫= fun r => post_ballot_checkin r.1 user r1 tournament v1)
    = Return (db21, response1) /\
    debates db12 = debates db21 /\
    Debate.ballot_in <$> (debates db12 !! k1) = Some true /\
    Debate.ballot_in <$> (debates db12 !! k2) = Some true.
Proof.
  assert (forall db ra va ka da vna rb vb kb dbb vnb user,
            get_debate_from_ballot_checkin_request db ra va = Return (ka, da, vna) ->
            get_debate_from_ballot_checkin_request db rb vb = Return (kb, dbb, vnb) ->
            ka <> kb ->
            get_debate_from_ballot_checkin_request
              (log (ActionLogEntry.mk ACTION_TYPE_BALLOT_CHECKIN (Some user) (Some ka)
                      None None tournament)
                 (save_debate ka (Debate.set_ballot_in true da) db)) rb vb
            = Return (kb, dbb, vnb)) as Hindep.
  { clear. intros db ra va ka da vna rb vb kb dbb vnb user Ha Hb Hne.
    apply checkin_Return_inv in Ha as (vka & _ & Hda & _).
    apply checkin_Return_inv in Hb as (vkb & Hvb & Hdb & Hinb).
    rewrite (checkin_resolved _ rb vb vkb vnb kb dbb); [by rewrite Hinb|done|]. simpl.
    pose proof (objects_get_found _ _ _ _ Hda) as [Hka _].
    apply objects_get_Got. apply objects_get_Got in Hdb. rewrite <- Hdb.
    assert (~ debate_at rb vkb da) as Hnot.
    { intros Hat. apply Hne.
      assert (objects_filter (debate_at rb vkb) (debates db) !! ka = Some da) as Hin
        by (by apply objects_filter_lookup).
      rewrite Hdb in Hin. apply lookup_singleton_Some in Hin as [? _]. done. }
    by apply (objects_filter_save_other (debate_at rb vkb) (debates db) ka da). }
  intros H1 H2 Hne.
  destruct (post_ballot_checkin_success db user r1 tournament v1 k1 d1 venue1 H1)
    as [resp1 Hp1].
  destruct (post_ballot_checkin_success db user r2 tournament v2 k2 d2 venue2 H2)
    as [resp2 Hp2].
  pose proof (Hindep db r1 v1 k1 d1 venue1 r2 v2 k2 d2 venue2 user H1 H2 Hne) as H12.
  pose proof (Hindep db r2 v2 k2 d2 venue2 r1 v1 k1 d1 venue1 user H2 H1
                (not_eq_sym Hne)) as H21.
  destruct (post_ballot_checkin_success _ user r2 tournament v2 k2 d2 venue2 H12)
    as [resp12 Hp12].
  destruct (post_ballot_checkin_success _ user r1 tournament v1 k1 d1 venue1 H21)
    as [resp21 Hp21].
  eexists _, _, resp21, resp12.
  rewrite Hp1, Hp2. simpl. rewrite Hp12, Hp21.
  split; [done|]. split; [done|]. simpl.
  split; [by apply insert_insert_ne|].
  rewrite lookup_insert_ne by done. by rewrite !lookup_insert_eq.
Qed.

Lemma checkins_commute_witness :
  exists db12 db21 response1 response2,
    (post_ballot_checkin two_rooms_db 7 1 1 "room 1"
       ≫= fun r => post_ballot_checkin r.1 7 1 1 "room 2")
    = Return (db12, response2) /\
    (post_ballot_checkin two_rooms_db 7 1 1 "room 2"
       ≫= fun r => post_ballot_checkin r.1 7 1 1 "room 1")
    = Return (db21, response1) /\
    debates db12 = debates db21.
Proof.
  destruct (checkins_commute two_rooms_db 7 1 1 1 "room 1" "room 2"
              5 (Debate.mk 1 (Some 1) (Team.mk "Aff") (Team.mk "Neg") STATUS_NONE false)
              (Venue.mk "Room 1")
              6 (Debate.mk 1 (Some 2) (Team.mk "Pro") (Team.mk "Con") STATUS_NONE false)
              (Venue.mk "Room 2"))
    as (db12 & db21 & r1 & r2 & H12 & H21 & Heq & _);
    [vm_compute; reflexivity|vm_compute; reflexivity|lia|].
  exists db12, db21, r1, r2. split; [exact H12|]. split; [exact H21|exact Heq].
Defined.

(** X5. A venue is found under its own name written in any letter case,
    provided no other venue has that name up to case. *)
Theorem venue_found_by_own_name (db : DB) (k : Z) (venue : Venue.t) (v : string) :
  venues db !! k = Some venue ->
  (forall k' venue',
     venues db !! k' = Some venue' ->
     lower (Venue.name venue') = lower (Venue.name venue) -> k' = k) ->
  lower v = lower (Venue.name venue) ->
  objects_get (venue_named v) (venues db) = Got k venue.
Proof.
  intros Hk Huniq Hv. apply objects_get_Got. apply map_eq. intros k'.
  apply option_eq. intros venue'.
  rewrite objects_filter_lookup, lookup_singleton_Some. unfold venue_named, iexact.
  split.
  - intros [Hk' Hname]. rewrite Hv in Hname.
    assert (k' = k) as -> by (by apply (Huniq k' venue')).
    split; [done|congruence].
  - intros [<- <-]. by split.
Qed.

Lemma venue_found_by_own_name_witness :
  objects_get (venue_named "rOOm 2") (venues two_rooms_db) = Got 2 (Venue.mk "Room 2").
Proof.
  apply venue_found_by_own_name.
  - vm_compute. reflexivity.
  - intros k' venue' Hk' Hname. simpl in Hk'.
    apply lookup_insert_Some in Hk' as [[<- <-]|[_ Hk']]; [by vm_compute in Hname|].
    by apply lookup_singleton_Some in Hk' as [<- _].
  - vm_compute. reflexivity.
Defined.

(** ** Postponement *)

(** X6. One toggle puts a debate in the two-state cycle, whatever its
    status was: the status it leaves is no result or postponed, never draft
    or confirmed, and two further toggles give back exactly the database the
    first one left, so three toggles do what one does. *)
Theorem toggle_postponed_settles (db : DB) (debate_id : Z) (d : Debate.t) :
  debates db !! debate_id = Some d ->
  exists db1 response,
    toggle_postponed db debate_id = Return (db1, response) /\
    (Debate.result_status <$> (debates db1 !! debate_id) = Some STATUS_NONE \/
     Debate.result_status <$> (debates db1 !! debate_id) = Some STATUS_POSTPONED) /\
    toggle_postponed_twice db1 debate_id = Return (db1, response) /\
    (toggle_postponed_twice db debate_id
       ≫= fun r => toggle_postponed r.1 debate_id) = Return (db1, response).
Proof.
  intros Hd. rewrite (toggle_postponed_found db debate_id d Hd).
  eexists _, _. split; [reflexivity|].
  set (d1 := Debate.set_result_status
               (if decide (Debate.result_status d = STATUS_POSTPONED)
                then STATUS_NONE else STATUS_POSTPONED) d).
  assert (debates (save_debate debate_id d1 db) !! debate_id = Some d1) as Hd1
    by (simpl; apply lookup_insert_eq).
  split.
  { rewrite Hd1. subst d1. simpl. case_decide; auto. }
  assert (toggle_postponed_twice (save_debate debate_id d1 db) debate_id
          = Return (save_debate debate_id d1 db,
                    RedirectRound "results" (Debate.round d))) as Htwice.
  { rewrite (toggle_postponed_twice_status _ debate_id d1 Hd1).
    rewrite save_debate_twice. subst d1.
    destruct d as [? ? ? ? st ?]; simpl. repeat case_decide; simplify_eq/=; try done;
      by destruct st. }
  split; [exact Htwice|].
  rewrite (toggle_postponed_twice_status db debate_id d Hd). simpl.
  erewrite toggle_postponed_found by (simpl; apply lookup_insert_eq).
  rewrite save_debate_twice. subst d1.
  destruct d as [? ? ? ? st ?]; simpl. by destruct st.
Qed.

Lemma toggle_postponed_settles_witness :
  exists db1 response,
    toggle_postponed draft_db 1 = Return (db1, response) /\
    toggle_postponed_twice db1 1 = Return (db1, response).
Proof.
  destruct (toggle_postponed_settles draft_db 1
              (Debate.mk 1 None (Team.mk "Aff") (Team.mk "Neg") STATUS_DRAFT false))
    as (db1 & response & H1 & _ & H2 & _); [vm_compute; reflexivity|].
  exists db1, response. split; [exact H1|exact H2].
Defined.

(** ** Ballots status timeline *)




Lemma datetime_sub_whole_seconds (now time : Z) :
  days (datetime_sub ((now - time) / second * second) 0) = days (datetime_sub now time) /\
  seconds (datetime_sub ((now - time) / second * second) 0)
  = seconds (datetime_sub now time).
Proof.
  unfold datetime_sub, second. simpl. rewrite Z.sub_0_r.
  set (us := now - time).
  change 86400000000 with (1000000 * 86400).
  split.
  - rewrite <- !Z.div_div by lia. by rewrite Z.div_mul by lia.
  - rewrite !Z.rem_mul_r by lia.
    rewrite Z.mod_mul, Z.add_0_l, Z.div_mul by lia.
    rewrite !(Z.mul_comm 1000000 (us / 1000000 mod 86400)).
    rewrite Z.div_mul, Z.div_add by lia.
    rewrite (Z.div_small (us mod 1000000)) by (apply Z.mod_pos_bound; lia). lia.
Qed.

Lemma float_whole_minutes (m : Z) :
  0 <= m < 1440 ->
  Float.add (Float.of_int 0) (Float.div (Float.of_int (60 * m)) (Float.of_int 60))
  = Float.of_int m.
Proof.
  intros Hm.
  assert (forallb
            (fun m =>
               bool_decide
                 (Float.add (Float.of_int 0)
                    (Float.div (Float.of_int (60 * m)) (Float.of_int 60))
                  = Float.of_int m)) (seqZ 0 1440) = true) as Hall by (by vm_compute).
  rewrite forallb_forall in Hall.
  eapply bool_decide_eq_true_1, (Hall m), list_elem_of_In, elem_of_seqZ. lia.
Qed.

(** X7. [minutes_ago] depends on the whole seconds elapsed only, rounded
    down also for a time in the future: the microseconds of the difference
    are dropped and anything less than a second ago is [0.0] minutes ago. A
    whole number of minutes less than a day ago is that number, exactly. A
    time one second ahead is [-1440 + 86399 / 60] minutes ago in doubles,
    that is -0.01666666666665151, which is not the double nearest to
    [-1 / 60]. *)
Theorem minutes_ago_drops_microseconds (now time : Z) :
  Float.minutes_ago now time
  = Float.minutes_ago ((now - time) / second * second) 0 /\
  (0 <= now - time < second -> Float.minutes_ago now time = S754_zero false) /\
  (forall m,
     0 <= m < 1440 -> (now - time) / second = 60 * m ->
     Float.minutes_ago now time = Float.of_int m) /\
  ((now - time) / second = -1 ->
   Float.minutes_ago now time = S754_finite true 4803839602524160 (-58) /\
   Float.div (Float.of_int (-1)) (Float.of_int 60)
   = S754_finite true 4803839602528529 (-58)).
Proof.
  assert (Float.minutes_ago now time
          = Float.minutes_ago ((now - time) / second * second) 0) as Hwhole.
  { unfold Float.minutes_ago.
    by destruct (datetime_sub_whole_seconds now time) as [-> ->]. }
  split; [done|]. rewrite Hwhole. split; [|split].
  - intros Hsub. unfold second in *. by rewrite Z.div_small by lia.
  - intros m Hm ->. rewrite <- (float_whole_minutes m Hm).
    unfold Float.minutes_ago, datetime_sub, second. rewrite Z.sub_0_r.
    replace (60 * m * 1000000) with (m * 60000000) by lia.
    change 86400000000 with (1440 * 60000000).
    rewrite Z.div_mul_cancel_r, (Z.div_small m), Z.mul_mod_distr_r by lia.
    rewrite (Z.mod_small m) by lia. simpl.
    replace (m * 60000000) with (60 * m * 1000000) by lia.
    by rewrite Z.div_mul by lia.
  - intros ->. by vm_compute.
Qed.

Lemma minutes_ago_drops_microseconds_witness :
  Float.minutes_ago 100999999 100000000 = S754_zero false /\
  Float.minutes_ago histogram_now (histogram_now - 30 * minute) = Float.of_int 30 /\
  Float.minutes_ago 0 second = S754_finite true 4803839602524160 (-58).
Proof.
  split; [|split].
  - apply (proj1 (proj2 (minutes_ago_drops_microseconds 100999999 100000000))).
    unfold second. lia.
  - apply (proj1 (proj2 (proj2 (minutes_ago_drops_microseconds
                                    histogram_now (histogram_now - 30 * minute)))));
      [lia|reflexivity].
  - apply (proj2 (proj2 (proj2 (minutes_ago_drops_microseconds 0 second)))).
    reflexivity.
Defined.












(** ** Entering and confirming ballots *)

Section entry_facts.
Context {QueryDict : Type} `{!BallotSetForm QueryDict}.

(** X10. What [edit_ballotset] does with a valid POST is decided by the
    flags the form leaves on the ballot, discarded first: a ballot left
    discarded is logged as discarded and gets no confirmer even if it is
    also marked confirmed; only a ballot left confirmed and not discarded is
    saved again, with the user as confirmer; anything else is logged as an
    edit. In each case one entry for the requesting user goes to the action
    log and the view redirects to the round of the debate. *)
Theorem edit_ballotset_post (db : DB) (request : HttpRequest QueryDict)
    (t : Tournament.t) (now ballotsub_id : Z) (b : BallotSubmission.t) (d : Debate.t)
    db1 pk b1 :
  ballotsubmissions db !! ballotsub_id = Some b ->
  debates db !! BallotSubmission.debate b = Some d ->
  method request = POST ->
  is_valid db (Some ballotsub_id) b (POST_data request) false = true ->
  form_save db (Some ballotsub_id) b (POST_data request) = (db1, pk, b1) ->
  exists db2 action_type text,
    edit_ballotset db request t now ballotsub_id
    = Return (log (ActionLogEntry.mk action_type (Some (User.id (user request))) None
                     (Some pk) (Some (ip_address request)) (Tournament.id t))
                (add_message (mk_message SUCCESS text (BallotSubmission.debate b)) db2),
              RedirectRound "results" (Debate.round d)) /\
    ((BallotSubmission.discarded b1 = true /\
      action_type = ACTION_TYPE_BALLOT_DISCARD /\ db2 = db1) \/
     (BallotSubmission.discarded b1 = false /\ BallotSubmission.confirmed b1 = true /\
      action_type = ACTION_TYPE_BALLOT_CONFIRM /\
      db2 = ballotsub_save db1 pk
              (BallotSubmission.set_confirmer (Some (User.id (user request)))
                 (Some now) b1)) \/
     (BallotSubmission.discarded b1 = false /\ BallotSubmission.confirmed b1 = false /\
      action_type = ACTION_TYPE_BALLOT_EDIT /\ db2 = db1)).
Proof.
  intros Hb Hd Hpost Hvalid Hsave. unfold edit_ballotset.
  rewrite Hb, Hd, Hpost, Hvalid, Hsave.
  destruct (BallotSubmission.discarded b1) eqn:Hdisc;
    [|destruct (BallotSubmission.confirmed b1) eqn:Hconf];
    eexists _, _, _; (split; [reflexivity|]); auto 10.
Qed.

(** X11. The three ballot views write nothing unless they are given a POST
    that the form they build accepts: on a GET, or on a POST which that form
    rejects, whatever they return comes with the database they were given.
    The form is the one of the view: [edit_ballotset] builds it from the
    stored ballot, the two others from a fresh ballot of the debate, and
    only [public_new_ballotset] asks it for a password. The one exception is
    the error message [new_ballotset] leaves when the debate has no chair. *)
Theorem ballot_views_read_only (db db' : DB) (request : HttpRequest QueryDict)
    (t : Tournament.t) (now id : Z) (response : HttpResponse) :
  (method request = GET \/
   (forall ballotsub,
      ballotsubmissions db !! id = Some ballotsub ->
      is_valid db (Some id) ballotsub (POST_data request) false = false) ->
   edit_ballotset db request t now id = Return (db', response) -> db' = db) /\
  (method request = GET \/
   (forall k da,
      objects_get (adjudicating_in db id (Tournament.current_round t))
        (debateadjudicators db) = Got k da ->
      is_valid db None
        (BallotSubmission.mk (DebateAdjudicator.debate da) 0 SUBMITTER_PUBLIC None
           false false now None None (ip_address request) 0)
        (POST_data request) true = false) ->
   public_new_ballotset db request t now id = Return (db', response) -> db' = db) /\
  (method request = GET \/
   is_valid db None
     (BallotSubmission.mk id 0 SUBMITTER_TABROOM (Some (User.id (user request)))
        false false now None None (ip_address request) 0)
     (POST_data request) false = false ->
   new_ballotset db request t now id = Return (db', response) ->
   db' = db \/
   has_chair db id = false /\
   ballotsubmissions db' = ballotsubmissions db /\
   actionlog db' = actionlog db /\
   debates db' = debates db /\
   exists m, messages db' = messages db ++ [m] /\ level m = ERROR).
Proof.
  split; [|split].
  - unfold edit_ballotset. intros Hidle Hview.
    destruct (ballotsubmissions db !! id) as [ballotsub|] eqn:Hb; [|done].
    repeat case_match; simplify_eq; try done;
      destruct Hidle as [?|Hinvalid]; try congruence;
      by rewrite (Hinvalid ballotsub eq_refl) in *.
  - unfold public_new_ballotset. intros Hidle Hview.
    destruct (rounds db !! Tournament.current_round t) as [round|]; [|done].
    destruct (bool_decide (Round.draw_status round <> STATUS_RELEASED)
              || negb (Round.motions_released round)); [by simplify_eq|].
    destruct (objects_get (adjudicating_in db id (Tournament.current_round t))
                (debateadjudicators db)) as [k da| |] eqn:Hda;
      [|by simplify_eq|done].
    repeat case_match; simplify_eq; try done;
      destruct Hidle as [?|Hinvalid]; try congruence;
      by rewrite (Hinvalid k da eq_refl) in *.
  - unfold new_ballotset. intros Hidle Hview.
    repeat case_match; simplify_eq; try (by left);
      try (right; rewrite negb_true_iff in *; simpl; repeat split; eauto; fail);
      destruct Hidle as [?|Hinvalid]; try congruence;
      by rewrite Hinvalid in *.
Qed.
End entry_facts.

Lemma edit_ballotset_post_witness :
  exists db2 action_type text pk,
    edit_ballotset draft_db (staff_post false true) tournament_1 50 1
    = Return (log (ActionLogEntry.mk action_type (Some 7) None (Some pk)
                     (Some "10.0.0.1") 1)
                (add_message (mk_message SUCCESS text 1) db2),
              RedirectRound "results" 1).
Proof.
  destruct (form_save draft_db (Some 1)
              (BallotSubmission.mk 1 1 SUBMITTER_TABROOM (Some 7) false false 0 None
                 None "10.0.0.1" 0) (POST_data (staff_post false true)))
    as [[db1 pk] b1] eqn:Hsave.
  destruct (edit_ballotset_post draft_db (staff_post false true) tournament_1 50 1
              (BallotSubmission.mk 1 1 SUBMITTER_TABROOM (Some 7) false false 0 None
                 None "10.0.0.1" 0)
              (Debate.mk 1 None (Team.mk "Aff") (Team.mk "Neg") STATUS_DRAFT false)
              db1 pk b1)
    as (db2 & ty & text & Hedit & _);
    [vm_compute; reflexivity|vm_compute; reflexivity|reflexivity
    |vm_compute; reflexivity|exact Hsave|].
  exists db2, ty, text, pk. exact Hedit.
Defined.

Lemma ballot_views_read_only_witness :
  match @public_new_ballotset _ password_form chaired_db public_post tournament_1 50 9 with
  | Return (db', response) =>
      db' = chaired_db /\ context_lookup "form" response = Some (VForm true)
  | Raise _ => False
  end.
Proof.
  destruct (@public_new_ballotset _ password_form chaired_db public_post tournament_1 50 9)
    as [[db' response]|e] eqn:Hview.
  - split.
    + apply (proj1 (proj2 (@ballot_views_read_only _ password_form chaired_db db'
                             public_post tournament_1 50 9 response)));
        [right; intros k da _; reflexivity|exact Hview].
    + vm_compute in Hview. by simplify_eq.
  - vm_compute in Hview. discriminate.
Defined.

Section public_gate_facts.
Context {QueryDict : Type} `{!BallotSetForm QueryDict}.

(** X12. [public_new_ballotset] turns a request away in a fixed order and
    writes nothing when it does: a round whose draw is not released or whose
    motions are not released gives the not-released page whether or not the
    adjudicator has a debate; in a released round an adjudicator on no
    debate of the round gets the no-debate page; and an adjudicator on
    several debates of the round makes the view fail with
    [MultipleObjectsReturned]. *)
Theorem public_new_ballotset_gate (db : DB) (request : HttpRequest QueryDict)
    (t : Tournament.t) (now adjudicator : Z) (round : Round.t) :
  rounds db !! Tournament.current_round t = Some round ->
  (Round.draw_status round <> STATUS_RELEASED \/ Round.motions_released round = false ->
   public_new_ballotset db request t now adjudicator
   = Return (db, Render "public_enter_results_error.html"
                   [("adjudicator", VRef adjudicator);
                    ("message",
                     VStr "The draw and/or motions for the round haven't been released yet.")])) /\
  (Round.draw_status round = STATUS_RELEASED ->
   Round.motions_released round = true ->
   ((forall k da,
       debateadjudicators db !! k = Some da ->
       ~ adjudicating_in db adjudicator (Tournament.current_round t) da) ->
    public_new_ballotset db request t now adjudicator
    = Return (db, Render "public_enter_results_error.html"
                    [("adjudicator", VRef adjudicator);
                     ("message",
                      VStr "It looks like you don't have a debate this round.")])) /\
   ((2 <= size (objects_filter
                  (adjudicating_in db adjudicator (Tournament.current_round t))
                  (debateadjudicators db)))%nat ->
    public_new_ballotset db request t now adjudicator
    = Raise ModelMultipleObjectsReturned)).
Proof.
  intros Hround. unfold public_new_ballotset. rewrite Hround. split.
  - intros [Hdraw|Hmotions].
    + by rewrite bool_decide_true by done.
    + rewrite Hmotions. by rewrite orb_true_r.
  - intros Hdraw Hmotions. rewrite Hdraw, Hmotions.
    rewrite bool_decide_false by (by intros []). simpl. split.
    + intros Hnone.
      by rewrite (proj2 (objects_get_DoesNotExist _ _))
        by (by apply objects_filter_empty).
    + intros Hmany. by rewrite (proj2 (objects_get_Multiple _ _)) by done.
Qed.
End public_gate_facts.

Lemma public_new_ballotset_gate_witness :
  public_new_ballotset unreleased_db public_post tournament_1 50 9
  = Return (unreleased_db,
            Render "public_enter_results_error.html"
              [("adjudicator", VRef 9);
               ("message",
                VStr "The draw and/or motions for the round haven't been released yet.")]) /\
  public_new_ballotset chaired_db public_post tournament_1 50 4
  = Return (chaired_db,
            Render "public_enter_results_error.html"
              [("adjudicator", VRef 4);
               ("message", VStr "It looks like you don't have a debate this round.")]).
Proof.
  split.
  - apply (proj1 (public_new_ballotset_gate unreleased_db public_post tournament_1 50 9
                    (Round.mk STATUS_RELEASED false) ltac:(vm_compute; reflexivity))).
    right. reflexivity.
  - apply (proj2 (public_new_ballotset_gate chaired_db public_post tournament_1 50 4
                    (Round.mk STATUS_RELEASED true) ltac:(vm_compute; reflexivity)));
      [reflexivity..|].
    intros k da Hk [Hadj _]. simpl in Hk.
    apply lookup_singleton_Some in Hk as [_ <-]. done.
Defined.

(** ** The ballots listed beside the form *)

Lemma StronglySorted_lookup_le {A} (R : relation A) (l : list A) (i j : nat) (x y : A) :
  StronglySorted R l -> (i < j)%nat -> l !! i = Some x -> l !! j = Some y -> R x y.
Proof.
  intros Hs. revert i j. induction Hs as [|z l Hs IH Hall]; intros i j Hij Hi Hj;
    [done|].
  destruct j as [|j]; [lia|]. simpl in Hj. destruct i as [|i].
  - simpl in Hi. injection Hi as ->.
    eapply Forall_forall in Hall; [exact Hall|]. by eapply list_elem_of_lookup_2.
  - simpl in Hi. apply (IH i j); [lia|done..].
Qed.

#[local] Instance by_version_transitive : Transitive by_version.
Proof. intros x y z. unfold by_version. lia. Qed.

#[local] Instance by_version_total : Total by_version.
Proof. intros x y. unfold by_version. lia. Qed.

Lemma all_ballotsubs_sorted (db : DB) (debate : Z) (superuser : bool) :
  exists pairs,
    all_ballotsubs db debate superuser = pairs.*1 /\
    StronglySorted by_version pairs /\
    NoDup pairs.*1 /\
    forall k b,
      (k, b) ∈ pairs <->
      ballotsubmissions db !! k = Some b /\ listed superuser debate b.
Proof.
  unfold all_ballotsubs. eexists. split; [reflexivity|].
  split; [apply StronglySorted_merge_sort; apply _|].
  split; [rewrite merge_sort_Permutation; apply NoDup_fst_map_to_list|].
  intros k b. rewrite merge_sort_Permutation, elem_of_map_to_list.
  destruct superuser; rewrite objects_filter_lookup;
    unfold listed, of_debate, not_discarded_of; intuition congruence.
Qed.

(** X13. The ballots listed beside the form are those of the debate, each
    once, in the order of their versions; an assistant is shown all but the
    discarded ones and a superuser is shown all of them. *)
Theorem all_ballotsubs_listing (db : DB) (debate : Z) (superuser : bool) :
  (forall k,
     k ∈ all_ballotsubs db debate superuser <->
     exists b, ballotsubmissions db !! k = Some b /\ listed superuser debate b) /\
  NoDup (all_ballotsubs db debate superuser) /\
  (forall i j ki kj bi bj,
     (i < j)%nat ->
     all_ballotsubs db debate superuser !! i = Some ki ->
     all_ballotsubs db debate superuser !! j = Some kj ->
     ballotsubmissions db !! ki = Some bi ->
     ballotsubmissions db !! kj = Some bj ->
     BallotSubmission.version bi <= BallotSubmission.version bj).
Proof.
  destruct (all_ballotsubs_sorted db debate superuser)
    as (pairs & -> & Hsorted & Hnodup & Hin).
  split; [|split].
  - intros k. rewrite list_elem_of_fmap. split.
    + intros ([k' b] & -> & Hkb). exists b. by apply Hin.
    + intros (b & Hb). exists (k, b). split; [done|]. by apply Hin.
  - exact Hnodup.
  - intros i j ki kj bi bj Hij Hi Hj Hbi Hbj.
    rewrite list_lookup_fmap in Hi, Hj.
    destruct (pairs !! i) as [[ki' bi']|] eqn:Hpi; [|done].
    destruct (pairs !! j) as [[kj' bj']|] eqn:Hpj; [|done].
    simpl in Hi, Hj. simplify_eq.
    pose proof (StronglySorted_lookup_le by_version pairs i j _ _ Hsorted Hij Hpi Hpj)
      as Hle.
    apply list_elem_of_lookup_2, Hin in Hpi as [Hpi _].
    apply list_elem_of_lookup_2, Hin in Hpj as [Hpj _].
    by simplify_eq.
Qed.

Lemma all_ballotsubs_listing_witness :
  all_ballotsubs versions_db 1 true = [9; 8; 7] /\
  all_ballotsubs versions_db 1 false = [8; 7] /\
  BallotSubmission.version
    (BallotSubmission.mk 1 2 SUBMITTER_TABROOM (Some 7) false false 0 None None
       "10.0.0.1" 0)
  <= BallotSubmission.version
       (BallotSubmission.mk 1 3 SUBMITTER_TABROOM (Some 7) false false 0 None None
          "10.0.0.1" 0).
Proof.
  split; [vm_compute; reflexivity|]. split; [vm_compute; reflexivity|].
  apply (proj2 (proj2 (all_ballotsubs_listing versions_db 1 false)) 0%nat 1%nat 8 7);
    [lia|vm_compute; reflexivity..].
Defined.

(** ** Latest results *)

Lemma StronglySorted_omap {A B} (R : relation A) (R' : relation B)
    (f : A -> option B) (l : list A) :
  (forall x y x' y', f x = Some x' -> f y = Some y' -> R x y -> R' x' y') ->
  StronglySorted R l -> StronglySorted R' (omap f l).
Proof.
  intros Hf. induction 1 as [|x l Hs IH Hall]; [constructor|].
  simpl. destruct (f x) as [x'|] eqn:Hx; [|done].
  constructor; [done|]. apply Forall_forall. intros y' Hy'.
  apply list_elem_of_omap in Hy' as (y & Hy & Hfy).
  eapply Hf; [done..|]. eapply Forall_forall in Hall; done.
Qed.

Lemma length_omap_total {A B} (f : A -> option B) (l : list A) :
  (forall x, x ∈ l -> is_Some (f x)) -> length (omap f l) = length l.
Proof.
  induction l as [|x l IH]; intros Hall; [done|]. simpl.
  destruct (Hall x) as [y ->]; [left|]. simpl. f_equal. apply IH.
  intros z Hz. apply Hall. by right.
Qed.

#[local] Instance by_latest_transitive : Transitive by_latest.
Proof. intros x y z. unfold by_latest. lia. Qed.

#[local] Instance by_latest_total : Total by_latest.
Proof. intros x y. unfold by_latest. lia. Qed.

Section latest_results_facts.
Context (round_tournament : Z -> option Z).

Lemma latest_ballots_sorted (db : DB) (t : Z) :
  exists all,
    latest_ballots round_tournament db t = take 15 all /\
    StronglySorted newer_first all /\
    length all
    = size (objects_filter (confirmed_in round_tournament db t) (ballotsubmissions db)) /\
    forall b d,
      (b, d) ∈ all <->
      (exists k, ballotsubmissions db !! k = Some b) /\
      confirmed_in round_tournament db t b /\
      debates db !! BallotSubmission.debate b = Some d.
Proof.
  unfold latest_ballots. eexists. split; [reflexivity|].
  assert (forall kb,
            kb ∈ merge_sort by_latest
                   (map_to_list
                      (objects_filter (confirmed_in round_tournament db t)
                         (ballotsubmissions db))) <->
            ballotsubmissions db !! kb.1 = Some kb.2 /\
            confirmed_in round_tournament db t kb.2) as Hin.
  { intros [k b]. by rewrite merge_sort_Permutation, elem_of_map_to_list,
      objects_filter_lookup. }
  split; [|split].
  - apply (StronglySorted_omap by_latest); [|apply StronglySorted_merge_sort; apply _].
    intros [k b] [k' b'] [b1 d1] [b2 d2]. unfold with_debate, by_latest, newer_first.
    simpl. intros ? ?. by simplify_option_eq.
  - rewrite length_omap_total.
    + by rewrite merge_sort_Permutation, length_map_to_list.
    + intros kb [_ [Hjoin _]]%Hin. unfold with_debate.
      destruct (debates db !! BallotSubmission.debate kb.2); [by eexists|done].
  - intros b d. rewrite list_elem_of_omap. split.
    + intros ([k b'] & [Hk Hconf]%Hin & Hwith). unfold with_debate in Hwith.
      simpl in *. simplify_option_eq. eauto.
    + intros ([k Hk] & Hconf & Hd). exists (k, b). split; [by apply Hin|].
      unfold with_debate. simpl. by rewrite Hd.
Qed.

(** X14. The latest results are the confirmed ballots of the tournament,
    newest first and at most fifteen: all of them when there are no more
    than fifteen, and otherwise fifteen such that no confirmed ballot left
    out is newer than one that is listed. Each comes with its own debate. *)
Theorem latest_ballots_newest (db : DB) (t : Z) :
  Z.of_nat (length (latest_ballots round_tournament db t))
  = Z.min 15 (objects_count (confirmed_in round_tournament db t) (ballotsubmissions db)) /\
  (forall b d,
     (b, d) ∈ latest_ballots round_tournament db t ->
     (exists k, ballotsubmissions db !! k = Some b) /\
     BallotSubmission.confirmed b = true /\
     debates db !! BallotSubmission.debate b = Some d /\
     round_tournament (Debate.round d) = Some t) /\
  (forall i j bi di bj dj,
     (i < j)%nat ->
     latest_ballots round_tournament db t !! i = Some (bi, di) ->
     latest_ballots round_tournament db t !! j = Some (bj, dj) ->
     BallotSubmission.timestamp bj <= BallotSubmission.timestamp bi) /\
  (forall k b,
     ballotsubmissions db !! k = Some b ->
     confirmed_in round_tournament db t b ->
     (exists d, (b, d) ∈ latest_ballots round_tournament db t) \/
     forall b' d',
       (b', d') ∈ latest_ballots round_tournament db t ->
       BallotSubmission.timestamp b <= BallotSubmission.timestamp b').
Proof.
  destruct (latest_ballots_sorted db t) as (all & -> & Hsorted & Hlen & Hin).
  rewrite <- (take_drop 15 all) in Hsorted.
  split; [|split; [|split]].
  - rewrite length_take, Hlen. unfold objects_count. lia.
  - intros b d (i & Hb%list_elem_of_lookup_2 & _)%elem_of_take.
    apply Hin in Hb as (Hk & [Hjoin Hconf] & Hd). rewrite Hd in Hjoin. done.
  - intros i j bi di bj dj Hij Hi Hj.
    apply (StronglySorted_lookup_le newer_first (take 15 all) i j (bi, di) (bj, dj));
      [by eapply StronglySorted_app_1_l|done..].
  - intros k b Hk Hconf.
    assert (is_Some (debates db !! BallotSubmission.debate b)) as [d Hd].
    { destruct Hconf as [Hjoin _].
      destruct (debates db !! BallotSubmission.debate b); [by eexists|done]. }
    assert ((b, d) ∈ take 15 all ++ drop 15 all) as Hb
      by (rewrite take_drop; apply Hin; eauto).
    apply elem_of_app in Hb as [Hb|Hb]; [left; eauto|right].
    intros b' d' Hb'.
    apply (StronglySorted_app_1_elem_of newer_first _ _ (b', d') (b, d) Hsorted Hb' Hb).
Qed.
End latest_results_facts.

Lemma latest_ballots_newest_witness :
  (exists d,
     (BallotSubmission.mk 3 1 SUBMITTER_TABROOM (Some 7) true false
        (histogram_now - 10 * minute) (Some 8) (Some histogram_now) "10.0.0.1" 0, d)
     ∈ latest_ballots (fun _ => Some 1) histogram_db 1) \/
  forall b' d',
    (b', d') ∈ latest_ballots (fun _ => Some 1) histogram_db 1 ->
    histogram_now - 10 * minute <= BallotSubmission.timestamp b'.
Proof.
  apply (proj2 (proj2 (proj2 (latest_ballots_newest (fun _ => Some 1) histogram_db 1)))
           3).
  - vm_compute. reflexivity.
  - split; vm_compute; reflexivity.
Defined.

(** ** Public results *)

Section public_results_facts.
Context (seq : Z -> Z) (silent : Z -> bool)
        (current_round_seq : Z) (all_results_released : bool).

(** X15. The public results page of a round is refused as silent exactly
    when the round is silent and not all results are released, and as not
    yet available exactly when the round is not silent, is the current
    round or a later one, and not all results are released; a refusal
    leaves the session as it was. Once all results are released nothing is
    refused. *)
Theorem public_results_refusals (round : Z) (GET_params session : gmap string string) :
  let result :=
    PublicResultsForRoundView_get seq silent current_round_seq all_results_released
      round GET_params session in
  (result.2 = PublicResultsSilent <->
   silent round = true /\ all_results_released = false) /\
  (result.2 = PublicResultsNotAvailable <->
   silent round = false /\ current_round_seq <= seq round /\
   all_results_released = false) /\
  (result.2 = PublicResultsSilent \/ result.2 = PublicResultsNotAvailable ->
   result.1 = session) /\
  (all_results_released = true ->
   exists table view_type, result.2 = PublicResults table view_type).
Proof.
  unfold PublicResultsForRoundView_get.
  destruct (silent round), all_results_released; simpl;
    try case_bool_decide; simpl;
    repeat split; intros; destruct_and?; destruct_or?; simplify_eq;
    try done; try lia; eauto.
Qed.

(** X16. The table shown follows the [view] parameter when it is [team] or
    [debate], and the session remembers it: after a request with
    [view=debate] is served, a request without the parameter, or with any
    other value for it, is served by debate again and leaves the session as
    it is. With neither the parameter nor a remembered choice the table is
    by team. *)
Theorem public_results_view_remembered (round round' : Z) (view : string)
    (GET_params session : gmap string string) :
  silent round && negb all_results_released = false ->
  bool_decide (current_round_seq <= seq round) && negb all_results_released = false ->
  silent round' && negb all_results_released = false ->
  bool_decide (current_round_seq <= seq round') && negb all_results_released = false ->
  GET_params !! "view" = None \/
  (GET_params !! "view" = Some view /\ view <> "team" /\ view <> "debate") ->
  let first :=
    PublicResultsForRoundView_get seq silent current_round_seq all_results_released
      round {["view" := "debate"]} session in
  first.2 = PublicResults TableByDebate "debate" /\
  PublicResultsForRoundView_get seq silent current_round_seq all_results_released
    round' GET_params first.1
  = (first.1, PublicResults TableByDebate "debate") /\
  (session !! "results_view" = None ->
   PublicResultsForRoundView_get seq silent current_round_seq all_results_released
     round GET_params session
   = (session, PublicResults TableByTeam "team")).
Proof.
  intros Hs Ha Hs' Ha' Hview. unfold PublicResultsForRoundView_get.
  rewrite Hs, Ha, Hs', Ha'. rewrite lookup_singleton_eq.
  assert ("debate" ∈ ["team"; "debate"]) as Hdeb by (rewrite !elem_of_cons; auto).
  rewrite (decide_True _ _ Hdeb). cbv zeta. cbn [fst snd].
  assert (<["results_view":="debate"]> session !! "results_view" = Some "debate")
    as Hmem by apply lookup_insert_eq.
  destruct Hview as [->|(-> & Hteam & Hdebate)].
  - unfold get_table. rewrite Hmem. cbn [default]. split; [done|]. split; [done|].
    by intros ->.
  - assert (view ∉ ["team"; "debate"]) as Hnot
      by (rewrite !elem_of_cons, elem_of_nil; intuition).
    rewrite !(decide_False _ _ Hnot). unfold get_table. rewrite Hmem. cbn [default].
    split; [done|]. split; [done|]. by intros ->.
Qed.

Context (confirmed_ballot : DB -> Z -> option Z).

(** X17. A ballot is shown to the public exactly when the debate exists and
    is confirmed, its round is not later than the current round and not
    silent, or all results are released, and the debate has a confirmed
    ballot; every other request is answered with [Http404] and no other
    exception. *)
Theorem public_ballots_view_shown (db : DB) (debate_id : Z) :
  (forall response,
     public_ballots_view seq silent current_round_seq all_results_released
       confirmed_ballot db debate_id = Return response <->
     exists d b,
       debates db !! debate_id = Some d /\
       Debate.result_status d = STATUS_CONFIRMED /\
       (seq (Debate.round d) <= current_round_seq /\ silent (Debate.round d) = false \/
        all_results_released = true) /\
       confirmed_ballot db debate_id = Some b /\
       response = Render "public_ballot_set.html"
                    [("debate", VRef debate_id); ("ballot_set", VRef b)]) /\
  (forall e,
     public_ballots_view seq silent current_round_seq all_results_released
       confirmed_ballot db debate_id = Raise e -> e = Http404).
Proof.
  unfold public_ballots_view.
  destruct (debates db !! debate_id) as [d|] eqn:Hd.
  2: { split; [|by intros e [= <-]]. intros response. split; [done|].
       by intros (? & ? & ? & _). }
  case_decide as Hstatus.
  { split; [|by intros e [= <-]]. intros response. split; [done|].
    intros (? & ? & ? & ? & _). by simplify_eq. }
  destruct ((bool_decide (current_round_seq < seq (Debate.round d))
             || silent (Debate.round d)) && negb all_results_released) eqn:Hgate.
  { split; [|by intros e [= <-]]. intros response. split; [done|].
    intros (d' & b & ? & _ & Hvisible & _). simplify_eq.
    apply andb_true_iff in Hgate as [Hlate Hrel%negb_true_iff].
    apply orb_true_iff in Hlate as [Hlate%bool_decide_eq_true|Hsilent];
      destruct Hvisible as [[? ?]|?]; try congruence; lia. }
  destruct (confirmed_ballot db debate_id) as [b|] eqn:Hb.
  2: { split; [|by intros e [= <-]]. intros response. split; [done|].
       by intros (? & ? & _ & _ & _ & ? & _). }
  split; [|done]. intros response. split.
  - intros [= <-]. exists d, b. repeat split; try done.
    apply andb_false_iff in Hgate as [Hgate|Hrel%negb_false_iff]; [|by right].
    apply orb_false_iff in Hgate as [Hlate%bool_decide_eq_false Hsilent].
    left. split; [lia|done].
  - intros (d' & b' & ? & _ & _ & ? & ->). by simplify_eq.
Qed.

(** X18. The two public views draw the line at different rounds. For a
    confirmed debate of the current round, not silent and with results not
    all released, [public_ballots_view] shows the confirmed ballot, while
    the results page of that same round is refused as not yet available. *)
Theorem current_round_ballot_shown_results_refused (db : DB) (debate_id : Z)
    (d : Debate.t) (b : Z) (GET_params session : gmap string string) :
  debates db !! debate_id = Some d ->
  Debate.result_status d = STATUS_CONFIRMED ->
  seq (Debate.round d) = current_round_seq ->
  silent (Debate.round d) = false ->
  all_results_released = false ->
  confirmed_ballot db debate_id = Some b ->
  public_ballots_view seq silent current_round_seq all_results_released
    confirmed_ballot db debate_id
  = Return (Render "public_ballot_set.html"
              [("debate", VRef debate_id); ("ballot_set", VRef b)]) /\
  PublicResultsForRoundView_get seq silent current_round_seq all_results_released
    (Debate.round d) GET_params session
  = (session, PublicResultsNotAvailable).
Proof.
  intros Hd Hstatus Hseq Hsilent Hrel Hb.
  unfold public_ballots_view, PublicResultsForRoundView_get.
  rewrite Hd, Hb, Hsilent, Hrel, Hseq. rewrite decide_False by (by intros []).
  rewrite bool_decide_false by lia. rewrite bool_decide_true by lia. done.
Qed.
End public_results_facts.

Lemma public_results_refusals_witness :
  PublicResultsForRoundView_get (fun r => r) (fun r => bool_decide (r = 3)) 5 false 3
    {["view" := "debate"]} ∅
  = (∅, PublicResultsSilent).
Proof.
  pose proof (public_results_refusals (fun r => r) (fun r => bool_decide (r = 3)) 5
                false 3 {["view" := "debate"]} ∅) as (Hsilent & _ & Hsession & _).
  apply injective_projections.
  - apply Hsession. left. by apply Hsilent.
  - by apply Hsilent.
Defined.

Lemma public_results_view_remembered_witness :
  PublicResultsForRoundView_get (fun r => r) (fun _ => false) 5 false 2
    {["view" := "table"]}
    (PublicResultsForRoundView_get (fun r => r) (fun _ => false) 5 false 1
       {["view" := "debate"]} ∅).1
  = ((PublicResultsForRoundView_get (fun r => r) (fun _ => false) 5 false 1
        {["view" := "debate"]} ∅).1,
     PublicResults TableByDebate "debate").
Proof.
  apply (public_results_view_remembered (fun r => r) (fun _ => false) 5 false 1 2
           "table" {["view" := "table"]} ∅); try reflexivity.
  right. split; [apply lookup_singleton_eq|]. split; discriminate.
Defined.

Lemma public_ballots_view_shown_witness :
  public_ballots_view (fun _ => 1) (fun _ => false) 1 false (fun _ _ => Some 1)
    confirmed_db 1
  = Return (Render "public_ballot_set.html" [("debate", VRef 1); ("ballot_set", VRef 1)]).
Proof.
  apply (proj1 (public_ballots_view_shown (fun _ => 1) (fun _ => false) 1 false
                  (fun _ _ => Some 1) confirmed_db 1)).
  exists (Debate.mk 1 None (Team.mk "Aff") (Team.mk "Neg") STATUS_CONFIRMED false), 1.
  split; [vm_compute; reflexivity|]. split; [reflexivity|].
  split; [left; split; [simpl; lia|reflexivity]|]. split; reflexivity.
Defined.

Lemma current_round_ballot_shown_results_refused_witness :
  public_ballots_view (fun _ => 1) (fun _ => false) 1 false (fun _ _ => Some 1)
    confirmed_db 1
  = Return (Render "public_ballot_set.html"
              [("debate", VRef 1); ("ballot_set", VRef 1)]) /\
  PublicResultsForRoundView_get (fun _ => 1) (fun _ => false) 1 false 1 ∅ ∅
  = (∅, PublicResultsNotAvailable).
Proof.
  apply (current_round_ballot_shown_results_refused (fun _ => 1) (fun _ => false) 1
           false (fun _ _ => Some 1) confirmed_db 1
           (Debate.mk 1 None (Team.mk "Aff") (Team.mk "Neg") STATUS_CONFIRMED false) 1
           ∅ ∅); reflexivity.
Defined.
